(** * afids_regrf/apply.py: applying trained regRF landmark models

    A shallow embedding of [apply_afid_model] and [apply_all_afid_models].

    - numpy [float64] values are Rocq's primitive binary64 floats; the
      elementwise operations are the IEEE ones, while the value of a matrix
      product depends on the BLAS kernel numpy was built with, which is a
      collaborator like the others;
    - Python [int]s are [Z], paths and file names are [string]s;
    - a Python exception is a value of [pyexn], and a computation that calls
      the collaborators of the module ([utils.get_fid], [utils.gen_features],
      [utils.afids_to_fcsv], [joblib.load], [numpy.load]) runs in the monad
      [M], which records every such call in a trace and stops at the first
      exception;
    - the collaborators themselves live outside [apply.py]: they are the
      fields of a [World] record every definition is parametrised by.

    The two [print] calls of [apply_afid_model] only format values that the
    next statements compute again; they are left out of the trace. *)

From Stdlib Require Import ZArith List Lia Bool String Ascii DecimalString.
From Stdlib Require Import Floats DecimalPos DecimalZ.
Import ListNotations.

Set Warnings "-inexact-float".
Open Scope string_scope.
Open Scope list_scope.
Open Scope Z_scope.

(* ================================================================== *)
(** ** Data *)

(** A length-3 float vector: a voxel coordinate read as floats, a row of the
    rotation block, a world coordinate. *)
Record vec3 : Type := V3 { vx : float; vy : float; vz : float }.

(** A row and the whole of a 4x4 affine matrix. *)
Record row4 : Type := R4 { c0 : float; c1 : float; c2 : float; c3 : float }.
Record affine : Type := Aff { r0 : row4; r1 : row4; r2 : row4; r3 : row4 }.

(** A length-3 integer vector: a row of the table given to the FCSV writer. *)
Record ivec3 : Type := IV3 { ix : Z; iy : Z; iz : Z }.

(** One feature-difference vector per candidate. *)
Definition featvec : Type := list float.

(** An integer array of the feature-offset archive. *)
Definition ndarray : Type := list (list Z).

(** [numpy.load] on an [.npz] archive: the arrays by name. *)
Definition npz : Type := list (string * ndarray).

(** [pathlib.Path(dir) / name]. *)
Record Path : Type := mkPath { parent : string; name : string }.

(** ** Exceptions *)

Inductive pyexn : Type :=
| ValueError (msg : string)
| KeyError (key : string)
| IndexError (msg : string)
| TypeError (msg : string)
| RuntimeError (msg : string)
| FileNotFoundError (p : Path)
| CollaboratorError (cls : string) (msg : string).

(** The class name of an exception, as [type(e).__name__] gives it. *)
Definition exn_class (e : pyexn) : string :=
  match e with
  | ValueError _ => "ValueError"
  | KeyError _ => "KeyError"
  | IndexError _ => "IndexError"
  | TypeError _ => "TypeError"
  | RuntimeError _ => "RuntimeError"
  | FileNotFoundError _ => "FileNotFoundError"
  | CollaboratorError cls _ => cls
  end.

Inductive result (A : Type) : Type :=
| Ok (a : A)
| Raise (e : pyexn).
Arguments Ok {A} a.
Arguments Raise {A} e.

(** ** The trained model: one operation, [predict]. *)
Record Regressor : Type := { predict : list featvec -> result (list float) }.

(** ** Calls to the collaborators, as they appear in the trace. *)
Inductive event : Type :=
| EvGetFid (fcsv_path : string) (index : Z)
| EvGenFeatures (subject_path : string) (padding sampling_rate size : Z)
| EvLoad (p : Path)
| EvNpLoad (path : string)
| EvWrite (table : list ivec3).

(** ** The collaborators. *)
Record World : Type := {
  (** [utils.get_fid(fcsv_path, index)]: the seed coordinate of one landmark. *)
  get_fid : string -> Z -> result vec3;
  (** [utils.gen_features(subject_path, fid, feature_offsets, padding,
      sampling_rate, size, predict=True)]: the triple
      [(aff, diff, samples)]. *)
  gen_features :
    string -> vec3 -> ndarray * ndarray -> Z -> Z -> Z ->
    result (affine * list featvec * list vec3);
  (** [joblib.load(path)]: [None] when no file is at [path]. *)
  model_store : Path -> option Regressor;
  (** [numpy.load(path)]. *)
  np_load : string -> result npz;
  (** [utils.afids_to_fcsv(table)]. *)
  afids_to_fcsv : list ivec3 -> result unit;
  (** The BLAS matrix-vector kernel behind [m.dot(v)] for a 3x3 [m]: the
      order of its additions and the fusing of its multiplications differ
      from one build to the other. *)
  blas_gemv : vec3 * vec3 * vec3 -> vec3 -> vec3;
  (** What [numpy.empty((3,))] happens to hold. *)
  np_empty3 : vec3
}.

(* ================================================================== *)
(** ** The monad: a trace of calls and a result or an exception *)

Definition M (A : Type) : Type := (list event * result A)%type.

Definition ret {A} (a : A) : M A := ([], Ok a).
Definition raise {A} (e : pyexn) : M A := ([], Raise e).
Definition lift {A} (r : result A) : M A := ([], r).
Definition emit (ev : event) : M unit := ([ev], Ok tt).

Definition bind {A B} (m : M A) (f : A -> M B) : M B :=
  match m with
  | (t, Ok a) => let (t', r) := f a in (t ++ t', r)
  | (t, Raise e) => (t, Raise e)
  end.

Notation "x <- m ;; k" := (bind m (fun x => k))
  (at level 61, m at next level, right associativity).
Notation "m ;;; k" := (bind m (fun _ => k))
  (at level 61, right associativity).

Definition trace {A} (m : M A) : list event := fst m.
Definition outcome {A} (m : M A) : result A := snd m.

(** The tables handed to the FCSV writer, and the files asked of joblib. *)
Definition writes (t : list event) : list (list ivec3) :=
  flat_map (fun ev => match ev with EvWrite tb => [tb] | _ => [] end) t.
Definition loads (t : list event) : list Path :=
  flat_map (fun ev => match ev with EvLoad p => [p] | _ => [] end) t.

(** The calls, each recorded before the collaborator runs. *)
Definition call_get_fid (W : World) (fcsv_path : string) (index : Z) : M vec3 :=
  emit (EvGetFid fcsv_path index) ;;; lift (get_fid W fcsv_path index).

Definition call_gen_features (W : World) (subject_path : string) (fid : vec3)
    (feature_offsets : ndarray * ndarray) (padding sampling_rate size : Z)
  : M (affine * list featvec * list vec3) :=
  emit (EvGenFeatures subject_path padding sampling_rate size) ;;;
  lift (gen_features W subject_path fid feature_offsets padding sampling_rate size).

Definition load (W : World) (p : Path) : M Regressor :=
  emit (EvLoad p) ;;;
  match model_store W p with
  | Some m => ret m
  | None => raise (FileNotFoundError p)
  end.

Definition call_np_load (W : World) (path : string) : M npz :=
  emit (EvNpLoad path) ;;; lift (np_load W path).

Definition call_afids_to_fcsv (W : World) (table : list ivec3) : M unit :=
  emit (EvWrite table) ;;; lift (afids_to_fcsv W table).

(* ================================================================== *)
(** ** Strings: [str(int)], [str.zfill], the model file name *)

(** [str(n)] for a Python [int]. *)
Definition str (n : Z) : string := NilZero.string_of_int (Z.to_int n).

Fixpoint zeros (n : nat) : string :=
  match n with
  | O => ""
  | S n' => String "0" (zeros n')
  end.

(** [s.zfill(width)]: zeros on the left, after a leading sign if any. *)
Definition zfill (width : nat) (s : string) : string :=
  let len := String.length s in
  if (width <=? len)%nat then s
  else
    match s with
    | String c rest =>
        if (Ascii.eqb c "+" || Ascii.eqb c "-")%bool
        then String c (zeros (width - len) ++ rest)%string
        else (zeros (width - len) ++ s)%string
    | EmptyString => zeros width
    end.

(** [f"afid-{str(afid_num).zfill(2)}_desc-rf_sampleRate-iso{sampling_rate}vox_model.joblib"] *)
Definition model_fname (afid_num sampling_rate : Z) : string :=
  ("afid-" ++ zfill 2 (str afid_num) ++ "_desc-rf_sampleRate-iso"
           ++ str sampling_rate ++ "vox_model.joblib")%string.

(* ================================================================== *)
(** ** numpy and pandas operations used by the module *)

(** [aff[:3, :3]]: the rows of the upper-left 3x3 block. *)
Definition rotation (T : affine) : vec3 * vec3 * vec3 :=
  (V3 (c0 (r0 T)) (c1 (r0 T)) (c2 (r0 T)),
   V3 (c0 (r1 T)) (c1 (r1 T)) (c2 (r1 T)),
   V3 (c0 (r2 T)) (c1 (r2 T)) (c2 (r2 T))).

(** [aff[:3, 3]]: the first three entries of the last column. *)
Definition translation (T : affine) : vec3 :=
  V3 (c3 (r0 T)) (c3 (r1 T)) (c3 (r2 T)).

(** One kernel among the possible ones: every product rounded, the sum
    accumulated left to right. *)
Definition unfused_dot3 (r v : vec3) : float :=
  (vx r * vx v + vy r * vy v + vz r * vz v)%float.

Definition unfused_gemv (m : vec3 * vec3 * vec3) (v : vec3) : vec3 :=
  let '(a, b, c) := m in V3 (unfused_dot3 a v) (unfused_dot3 b v) (unfused_dot3 c v).

(** A product that is a number other than zero. *)
Definition nonzero_number (p : float) : bool :=
  (negb (p =? 0)%float && negb (is_nan p))%bool.

(** One entry of [m.dot(v)], for the row [r] of [m].  When two entries of
    the row are zero, the matching entries of [v] are finite and the third
    product is a number other than zero, the sum has one term and every
    kernel returns that product, rounded once: adding a zero changes
    nothing, fused or not, in any order.  Otherwise the entry is what the
    kernel computes, [kernel_entry]. *)
Definition np_dot_row (kernel_entry : float) (r v : vec3) : float :=
  if (is_zero (vy r) && is_zero (vz r) && is_finite (vy v) && is_finite (vz v)
      && nonzero_number (vx r * vx v))%bool
  then (vx r * vx v)%float
  else if (is_zero (vx r) && is_zero (vz r) && is_finite (vx v) && is_finite (vz v)
           && nonzero_number (vy r * vy v))%bool
  then (vy r * vy v)%float
  else if (is_zero (vx r) && is_zero (vy r) && is_finite (vx v) && is_finite (vy v)
           && nonzero_number (vz r * vz v))%bool
  then (vz r * vz v)%float
  else kernel_entry.

(** [m.dot(v)] for a 3x3 [m]. *)
Definition mat_dot (W : World) (m : vec3 * vec3 * vec3) (v : vec3) : vec3 :=
  let '(a, b, c) := m in
  let y := blas_gemv W m v in
  V3 (np_dot_row (vx y) a v) (np_dot_row (vy y) b v) (np_dot_row (vz y) c v).

(** [u + v] on length-3 arrays. *)
Definition vadd (u v : vec3) : vec3 :=
  V3 (vx u + vx v)%float (vy u + vy v)%float (vz u + vz v)%float.

(** [aff[:3, :3].dot(v) + aff[:3, 3]] *)
Definition back_project (W : World) (T : affine) (v : vec3) : vec3 :=
  vadd (mat_dot W (rotation T) v) (translation T).

(** pandas reductions skip NaN: for an arg-max a NaN counts as [-inf]. *)
Definition fillna_neginf (x : float) : float :=
  if is_nan x then neg_infinity else x.

(** [numpy.argmax] on values without NaN: one pass, the running best is
    replaced only by a strictly greater value. *)
Fixpoint argmax_from (best_i : nat) (best : float) (i : nat) (xs : list float) : nat :=
  match xs with
  | [] => best_i
  | x :: xs' =>
      if (best <? x)%float
      then argmax_from i x (S i) xs'
      else argmax_from best_i best (S i) xs'
  end.

(** The value of [Series.idxmax()]: a row label, or NaN. *)
Inductive label : Type :=
| LInt (i : nat)
| LNaN.

(** [pd.DataFrame(dist_predict)[0].idxmax()] for a one-dimensional
    [dist_predict]: column [0] holds the scores under the labels
    [0 .. n-1].  An empty column raises; a column of NaN only gives NaN. *)
Definition idxmax (scores : list float) : result label :=
  match map fillna_neginf scores with
  | [] => Raise (ValueError "attempt to get argmax of an empty sequence")
  | x :: xs =>
      if forallb is_nan scores then Ok LNaN
      else Ok (LInt (argmax_from 0 x 1 xs))
  end.

(** [samples[idx]] on the candidate array. *)
Definition getitem (samples : list vec3) (idx : label) : result vec3 :=
  match idx with
  | LNaN =>
      Raise (IndexError "only integers, slices (`:`), ellipsis (`...`), numpy.newaxis (`None`) and integer or boolean arrays are valid indices")
  | LInt i =>
      match nth_error samples i with
      | Some v => Ok v
      | None =>
          Raise (IndexError
                   ("index " ++ str (Z.of_nat i)
                      ++ " is out of bounds for axis 0 with size "
                      ++ str (Z.of_nat (List.length samples)))%string)
      end
  end.

Definition int64_min : Z := - 2 ^ 63.
Definition int64_max : Z := 2 ^ 63 - 1.

(** The cast of a float64 to int64 done by [astype(int)]: the fraction is
    dropped (rounding toward zero); NaN, the infinities and values outside
    int64 give the "integer indefinite" value of the x86-64 conversion. *)
Definition astype_int (x : float) : Z :=
  match Prim2SF x with
  | S754_zero _ => 0
  | S754_finite s m e =>
      let a := Z.shiftl (Zpos m) e in
      let r := if s then - a else a in
      if ((int64_min <=? r) && (r <=? int64_max))%bool then r else int64_min
  | S754_infinity _ | S754_nan => int64_min
  end.

Definition astype_int3 (v : vec3) : ivec3 :=
  IV3 (astype_int (vx v)) (astype_int (vy v)) (astype_int (vz v)).

(** [range(lo, hi)] for [lo <= hi], as a list. *)
Definition range (lo hi : Z) : list Z :=
  map (fun k => lo + Z.of_nat k) (seq 0 (Z.to_nat (hi - lo))).

(** [archive[key]] on a loaded [.npz]. *)
Fixpoint npz_get (archive : npz) (key : string) : result ndarray :=
  match archive with
  | [] => Raise (KeyError key)
  | (k, a) :: rest => if String.eqb k key then Ok a else npz_get rest key
  end.

(* ================================================================== *)
(** ** The iterator [it.chain.from_iterable(gen_features(...) for ... in zip(...))] *)

(** What the chained iterator yields: the components of each triple, one
    after the other. *)
Inductive item : Type :=
| ItAffine (a : affine)
| ItDiff (d : list featvec)
| ItSamples (s : list vec3).

(** Its state: what is left of the triple being read, and the pairs of
    [zip(subject_paths, fcsv_paths)] not yet asked for. *)
Record chain_state : Type := {
  pending : list item;
  remaining : list (string * string)
}.

(** An exception that leaves the frame of a generator: a [StopIteration]
    raised in the body comes out as a [RuntimeError] (the class is known by
    its name here); any other exception comes out as it is. *)
Definition generator_exit (e : pyexn) : pyexn :=
  if String.eqb (exn_class e) "StopIteration"
  then RuntimeError "generator raised StopIteration"
  else e.

Definition in_generator {A} (m : M A) : M A :=
  match m with
  | (t, Raise e) => (t, Raise (generator_exit e))
  | (t, Ok a) => (t, Ok a)
  end.

Section Locator.
Variable W : World.
Variable afid_num : Z.
Variable feature_offsets : ndarray * ndarray.
Variables padding sampling_rate size : Z.

(** One [next()] on the chained iterator.  The generator expression is
    lazy: [get_fid] and [gen_features] run for a pair only when its triple
    is asked for, and they run in the frame of the generator. *)
Definition chain_next (st : chain_state) : M (option (item * chain_state)) :=
  match pending st with
  | x :: xs => ret (Some (x, {| pending := xs; remaining := remaining st |}))
  | [] =>
      match remaining st with
      | [] => ret None
      | (subject_path, fcsv_path) :: rest =>
          in_generator
            (fid <- call_get_fid W fcsv_path (afid_num - 1) ;;
             t <- call_gen_features W subject_path fid feature_offsets
                    padding sampling_rate size ;;
             let '(aff, diff, samples) := t in
             ret (Some (ItAffine aff,
                        {| pending := [ItDiff diff; ItSamples samples];
                           remaining := rest |})))
      end
  end.

(** [aff, diff, samples = <iterator>]: three items are taken, then a
    fourth is asked for to check that the iterator is exhausted. *)
Definition unpack3 (st : chain_state) : M (item * item * item) :=
  o1 <- chain_next st ;;
  match o1 with
  | None => raise (ValueError "not enough values to unpack (expected 3, got 0)")
  | Some (x1, st1) =>
      o2 <- chain_next st1 ;;
      match o2 with
      | None => raise (ValueError "not enough values to unpack (expected 3, got 1)")
      | Some (x2, st2) =>
          o3 <- chain_next st2 ;;
          match o3 with
          | None => raise (ValueError "not enough values to unpack (expected 3, got 2)")
          | Some (x3, st3) =>
              o4 <- chain_next st3 ;;
              match o4 with
              | Some _ => raise (ValueError "too many values to unpack (expected 3)")
              | None => ret (x1, x2, x3)
              end
          end
      end
  end.
End Locator.

(** The operations applied to the unpacked names, on whatever they hold. *)
Definition item_predict (regr_rf : Regressor) (diff : item) : result (list float) :=
  match diff with
  | ItDiff d => predict regr_rf d
  | ItAffine _ | ItSamples _ => Raise (TypeError "predict: not a feature array")
  end.

Definition item_getitem (samples : item) (idx : label) : result vec3 :=
  match samples with
  | ItSamples s => getitem s idx
  | ItAffine _ | ItDiff _ => Raise (TypeError "samples[idx]: not a candidate array")
  end.

Definition item_back_project (W : World) (aff : item) (v : vec3) : result vec3 :=
  match aff with
  | ItAffine T => Ok (back_project W T v)
  | ItDiff _ | ItSamples _ => Raise (TypeError "aff[:3, :3]: not an affine matrix")
  end.

(* ================================================================== *)
(** ** [apply_afid_model] *)

Definition apply_afid_model (W : World) (afid_num : Z)
    (subject_paths fcsv_paths : list string) (model_dir_path : string)
    (feature_offsets : ndarray * ndarray) (padding sampling_rate size : Z)
  : M vec3 :=
  t <- unpack3 W afid_num feature_offsets padding sampling_rate size
         {| pending := []; remaining := combine subject_paths fcsv_paths |} ;;
  let '(aff, diff, samples) := t in
  let fname := model_fname afid_num sampling_rate in
  regr_rf <- load W (mkPath model_dir_path fname) ;;
  dist_predict <- lift (item_predict regr_rf diff) ;;
  idx <- lift (idxmax dist_predict) ;;
  v <- lift (item_getitem samples idx) ;;
  lift (item_back_project W aff v).

(* ================================================================== *)
(** ** [apply_all_afid_models] *)

(** The body of [for afid_num in range(1, 33)], over the landmark numbers
    still to do; [all_afids_coords] is the array stacked so far. *)
Fixpoint afid_loop (W : World) (subject_paths fcsv_paths : list string)
    (model_dir_path : string) (feature_offsets : npz)
    (padding size sampling_rate : Z)
    (afid_nums : list Z) (all_afids_coords : list vec3) : M (list vec3) :=
  match afid_nums with
  | [] => ret all_afids_coords
  | afid_num :: rest =>
      arr_0 <- lift (npz_get feature_offsets "arr_0") ;;
      arr_1 <- lift (npz_get feature_offsets "arr_1") ;;
      (* the last three arguments are passed by position, in the order
         [padding, size, sampling_rate] *)
      afid_coords <- apply_afid_model W afid_num subject_paths fcsv_paths
                       model_dir_path (arr_0, arr_1) padding size sampling_rate ;;
      afid_loop W subject_paths fcsv_paths model_dir_path feature_offsets
        padding size sampling_rate rest (all_afids_coords ++ [afid_coords])
  end.

Definition apply_all_afid_models (W : World)
    (subject_paths fcsv_paths : list string)
    (feature_offsets_path model_dir_path : string)
    (padding size sampling_rate : Z) : M unit :=
  let all_afids_coords := [np_empty3 W] in
  feature_offsets <- call_np_load W feature_offsets_path ;;
  all_afids_coords <- afid_loop W subject_paths fcsv_paths model_dir_path
                        feature_offsets padding size sampling_rate
                        (range 1 33) all_afids_coords ;;
  call_afids_to_fcsv W (map astype_int3 (tl all_afids_coords)).

(* ================================================================== *)
(** ** Concrete worlds used to run the functions *)

Definition identity_affine : affine :=
  Aff (R4 1 0 0 0) (R4 0 1 0 0) (R4 0 0 1 0) (R4 0 0 0 1).

(** A model whose [predict] answers [0.1, 0.9, 0.4] whatever it is given. *)
Definition stub_model : Regressor :=
  {| predict := fun _ => Ok [0.1; 0.9; 0.4]%float |}.

(** Every subject has the three candidates (1,1,1), (2,2,2), (3,3,3) under
    the identity transform; every model file exists. *)
Definition stub_world : World := {|
  get_fid := fun _ _ => Ok (V3 0 0 0);
  gen_features := fun _ _ _ _ _ _ =>
    Ok (identity_affine, [[0]; [0]; [0]]%float, [V3 1 1 1; V3 2 2 2; V3 3 3 3]);
  model_store := fun _ => Some stub_model;
  np_load := fun _ => Ok [("arr_0", []); ("arr_1", [])];
  afids_to_fcsv := fun _ => Ok tt;
  blas_gemv := unfused_gemv;
  np_empty3 := V3 0 0 0
|}.

(** A transform that scales the three axes by 2, 3 and 4 and then shifts
    them by 120.9, -107.7 and 0.5. *)
Definition scaling_affine : affine :=
  Aff (R4 2 0 0 120.9) (R4 0 3 0 (-107.7)) (R4 0 0 4 0.5) (R4 0 0 0 1).

(** As [stub_world], with every subject under [scaling_affine]. *)
Definition scaled_world : World := {|
  get_fid := fun _ _ => Ok (V3 0 0 0);
  gen_features := fun _ _ _ _ _ _ =>
    Ok (scaling_affine, [[0]; [0]; [0]]%float, [V3 1 1 1; V3 2 2 2; V3 3 3 3]);
  model_store := fun _ => Some stub_model;
  np_load := fun _ => Ok [("arr_0", []); ("arr_1", [])];
  afids_to_fcsv := fun _ => Ok tt;
  blas_gemv := unfused_gemv;
  np_empty3 := V3 0 0 0
|}.

(** As [stub_world], with a seed reader that raises [StopIteration]. *)
Definition stop_iteration_world : World := {|
  get_fid := fun _ _ => Raise (CollaboratorError "StopIteration" "");
  gen_features := gen_features stub_world;
  model_store := model_store stub_world;
  np_load := np_load stub_world;
  afids_to_fcsv := afids_to_fcsv stub_world;
  blas_gemv := blas_gemv stub_world;
  np_empty3 := np_empty3 stub_world
|}.

(** As [stub_world], with a model directory ["models"] that holds the 32
    files of the models trained at sampling rate 5, and nothing else. *)
Definition iso5_world : World := {|
  get_fid := get_fid stub_world;
  gen_features := gen_features stub_world;
  model_store := fun p =>
    if (String.eqb (parent p) "models"
        && existsb (String.eqb (name p))
             (map (fun n => model_fname n 5) (range 1 33)))%bool
    then Some stub_model else None;
  np_load := np_load stub_world;
  afids_to_fcsv := afids_to_fcsv stub_world;
  blas_gemv := blas_gemv stub_world;
  np_empty3 := np_empty3 stub_world
|}.

(** As [stub_world], with an empty model directory. *)
Definition no_model_world : World := {|
  get_fid := get_fid stub_world;
  gen_features := gen_features stub_world;
  model_store := fun _ => None;
  np_load := np_load stub_world;
  afids_to_fcsv := afids_to_fcsv stub_world;
  blas_gemv := blas_gemv stub_world;
  np_empty3 := np_empty3 stub_world
|}.

(** As [stub_world], but a subject has no candidate at all and the model
    returns one score per candidate. *)
Definition no_candidate_world : World := {|
  get_fid := get_fid stub_world;
  gen_features := fun _ _ _ _ _ _ => Ok (identity_affine, [], []);
  model_store := fun _ => Some {| predict := fun d => Ok (map (fun _ => 0%float) d) |};
  np_load := np_load stub_world;
  afids_to_fcsv := afids_to_fcsv stub_world;
  blas_gemv := blas_gemv stub_world;
  np_empty3 := np_empty3 stub_world
|}.

(* ================================================================== *)
(** ** Predicates the properties are stated with *)

(** [k] is the first index of a greatest element of [xs]: no element is
    greater than [xs[k]], and every element before it is smaller. *)
Definition first_max (xs : list float) (k : nat) : Prop :=
  exists xk, nth_error xs k = Some xk /\
    (forall j xj, nth_error xs j = Some xj -> (xk <? xj)%float = false) /\
    (forall j xj, (j < k)%nat -> nth_error xs j = Some xj ->
                  (xj <? xk)%float = true).

(** [xs[k]] is a number and every other element is smaller. *)
Definition unique_max (xs : list float) (k : nat) : Prop :=
  exists xk, nth_error xs k = Some xk /\ is_nan xk = false /\
    (forall j xj, j <> k -> nth_error xs j = Some xj ->
                  (xj <? xk)%float = true).

(** The computation ends with an exception of the class named [cls]. *)
Definition fails_with {A} (cls : string) (m : M A) : Prop :=
  exists e, outcome m = Raise e /\ exn_class e = cls.

(** What is computed once the three names are bound and the model file has
    been asked for. *)
Definition score_and_project (W : World) (p : Path) (T : affine)
    (diff : list featvec) (samples : list vec3) : result vec3 :=
  match model_store W p with
  | None => Raise (FileNotFoundError p)
  | Some regr_rf =>
      match predict regr_rf diff with
      | Raise e => Raise e
      | Ok scores =>
          match idxmax scores with
          | Raise e => Raise e
          | Ok idx =>
              match getitem samples idx with
              | Raise e => Raise e
              | Ok v => Ok (back_project W T v)
              end
          end
      end
  end.

(* ================================================================== *)
(** ** Further definitions for the properties of the two functions *)

(** The upper-left block of [T] is diagonal without a zero on the diagonal,
    [v] is finite and the three products are numbers other than zero: each
    entry of the matrix product is a sum of one term. *)
Definition diagonal_case (T : affine) (v : vec3) : bool :=
  (is_zero (c1 (r0 T)) && is_zero (c2 (r0 T))
   && is_zero (c0 (r1 T)) && is_zero (c2 (r1 T))
   && is_zero (c0 (r2 T)) && is_zero (c1 (r2 T))
   && negb (is_zero (c0 (r0 T))) && negb (is_zero (c1 (r1 T)))
   && negb (is_zero (c2 (r2 T)))
   && is_finite (vx v) && is_finite (vy v) && is_finite (vz v)
   && nonzero_number (c0 (r0 T) * vx v)
   && nonzero_number (c1 (r1 T) * vy v)
   && nonzero_number (c2 (r2 T) * vz v))%bool.

(** The three calls the Locator makes for its one subject, in order. *)
Definition locator_events (subject_path fcsv_path model_dir_path : string)
    (padding sampling_rate size afid_num : Z) : list event :=
  [EvGetFid fcsv_path (afid_num - 1);
   EvGenFeatures subject_path padding sampling_rate size;
   EvLoad (mkPath model_dir_path (model_fname afid_num sampling_rate))].

(** A call is one a run of [apply_all_afid_models] makes for a landmark
    1..32: the seed of index [afid_num - 1], the features with the run's
    [padding, size, sampling_rate] in this order, the model file named after
    the landmark and the run's [size]. *)
Definition landmark_call (model_dir_path : string) (padding size sampling_rate : Z)
    (ev : event) : Prop :=
  match ev with
  | EvGetFid _ index => 0 <= index <= 31
  | EvGenFeatures _ p a b => p = padding /\ a = size /\ b = sampling_rate
  | EvLoad p =>
      exists n, 1 <= n <= 32 /\ p = mkPath model_dir_path (model_fname n size)
  | EvNpLoad _ => False
  | EvWrite _ => False
  end.

(** Reading a decimal numeral back, to reason on [str]. *)
Definition int_of_str (s : string) : option Z :=
  option_map Z.of_int (NilZero.int_of_string s).

Fixpoint string_forallb (P : ascii -> bool) (s : string) : bool :=
  match s with
  | EmptyString => true
  | String c s' => (P c && string_forallb P s')%bool
  end.

(** The characters [str] writes: the ten digits and the minus sign. *)
Definition is_numeral_char (c : ascii) : bool :=
  existsb (Ascii.eqb c)
    ["0"; "1"; "2"; "3"; "4"; "5"; "6"; "7"; "8"; "9"; "-"]%char.

(** The same world with another content of [numpy.empty((3,))]. *)
Definition with_np_empty3 (W : World) (v : vec3) : World := {|
  get_fid := get_fid W;
  gen_features := gen_features W;
  model_store := model_store W;
  np_load := np_load W;
  afids_to_fcsv := afids_to_fcsv W;
  blas_gemv := blas_gemv W;
  np_empty3 := v
|}.

(** As [stub_world], but the seed file cannot be read. *)
Definition bad_seed_world : World := {|
  get_fid := fun _ _ => Raise (CollaboratorError "FileNotFoundError" "seed file");
  gen_features := gen_features stub_world;
  model_store := model_store stub_world;
  np_load := np_load stub_world;
  afids_to_fcsv := afids_to_fcsv stub_world;
  blas_gemv := blas_gemv stub_world;
  np_empty3 := np_empty3 stub_world
|}.

(** As [stub_world], but the image cannot be read. *)
Definition bad_image_world : World := {|
  get_fid := get_fid stub_world;
  gen_features := fun _ _ _ _ _ _ => Raise (CollaboratorError "ImageFileError" "image");
  model_store := model_store stub_world;
  np_load := np_load stub_world;
  afids_to_fcsv := afids_to_fcsv stub_world;
  blas_gemv := blas_gemv stub_world;
  np_empty3 := np_empty3 stub_world
|}.

(** As [stub_world], with a model whose [predict] refuses its input. *)
Definition bad_predict_world : World := {|
  get_fid := get_fid stub_world;
  gen_features := gen_features stub_world;
  model_store := fun _ =>
    Some {| predict := fun _ => Raise (CollaboratorError "ValueError" "n_features") |};
  np_load := np_load stub_world;
  afids_to_fcsv := afids_to_fcsv stub_world;
  blas_gemv := blas_gemv stub_world;
  np_empty3 := np_empty3 stub_world
|}.

(** As [stub_world], with a model that answers four scores for three
    candidates, the greatest one last. *)
Definition long_predict_world : World := {|
  get_fid := get_fid stub_world;
  gen_features := gen_features stub_world;
  model_store := fun _ =>
    Some {| predict := fun _ => Ok [0.1; 0.9; 0.4; 2]%float |};
  np_load := np_load stub_world;
  afids_to_fcsv := afids_to_fcsv stub_world;
  blas_gemv := blas_gemv stub_world;
  np_empty3 := np_empty3 stub_world
|}.

(** As [stub_world], without the offset archive. *)
Definition no_archive_world : World := {|
  get_fid := get_fid stub_world;
  gen_features := gen_features stub_world;
  model_store := model_store stub_world;
  np_load := fun _ => Raise (CollaboratorError "FileNotFoundError" "archive");
  afids_to_fcsv := afids_to_fcsv stub_world;
  blas_gemv := blas_gemv stub_world;
  np_empty3 := np_empty3 stub_world
|}.

(** As [stub_world], with an archive that holds [arr_0] only. *)
Definition one_array_world : World := {|
  get_fid := get_fid stub_world;
  gen_features := gen_features stub_world;
  model_store := model_store stub_world;
  np_load := fun _ => Ok [("arr_0", [])];
  afids_to_fcsv := afids_to_fcsv stub_world;
  blas_gemv := blas_gemv stub_world;
  np_empty3 := np_empty3 stub_world
|}.

(** As [stub_world], with every model file but the one of landmark 3 (as
    named by a run with [size = 1]). *)
Definition missing_third_world : World := {|
  get_fid := get_fid stub_world;
  gen_features := gen_features stub_world;
  model_store := fun p =>
    if String.eqb (name p) (model_fname 3 1) then None else Some stub_model;
  np_load := np_load stub_world;
  afids_to_fcsv := afids_to_fcsv stub_world;
  blas_gemv := blas_gemv stub_world;
  np_empty3 := np_empty3 stub_world
|}.

(** As [stub_world], with a writer that cannot write. *)
Definition bad_writer_world : World := {|
  get_fid := get_fid stub_world;
  gen_features := gen_features stub_world;
  model_store := model_store stub_world;
  np_load := np_load stub_world;
  afids_to_fcsv := fun _ => Raise (CollaboratorError "PermissionError" "output");
  blas_gemv := blas_gemv stub_world;
  np_empty3 := np_empty3 stub_world
|}.

(* ================================================================== *)
(** ** The order of binary64 values *)

Definition sf_not_nan (x : spec_float) : Prop :=
  match x with S754_nan => False | _ => True end.

Ltac sf_compare_cases :=
  repeat match goal with
  | |- context [Z.compare ?a ?b] => destruct (Z.compare_spec a b); subst
  | |- context [Pos.compare_cont Eq ?a ?b] =>
      change (Pos.compare_cont Eq a b) with (Pos.compare a b);
      destruct (Pos.compare_spec a b); subst
  | H : context [Z.compare ?a ?b] |- _ => destruct (Z.compare_spec a b); subst
  | H : context [Pos.compare_cont Eq ?a ?b] |- _ =>
      change (Pos.compare_cont Eq a b) with (Pos.compare a b) in H;
      destruct (Pos.compare_spec a b); subst
  end; simpl in *; try congruence; try lia.

Lemma SFltb_irrefl (x : spec_float) : SFltb x x = false.
Proof.
  unfold SFltb, SFcompare.
  destruct x as [[]|[]| |[] m e]; try reflexivity; sf_compare_cases.
Qed.

Lemma SFltb_trans (x y z : spec_float) :
  SFltb x y = true -> SFltb y z = true -> SFltb x z = true.
Proof.
  unfold SFltb, SFcompare.
  destruct x as [[]|[]| |[] mx ex], y as [[]|[]| |[] my ey],
           z as [[]|[]| |[] mz ez];
    simpl; try congruence; intros; sf_compare_cases.
Qed.

Lemma SFltb_negtrans (x y z : spec_float) :
  sf_not_nan x -> sf_not_nan y -> sf_not_nan z ->
  SFltb x y = false -> SFltb y z = false -> SFltb x z = false.
Proof.
  unfold SFltb, SFcompare.
  destruct x as [[]|[]| |[] mx ex], y as [[]|[]| |[] my ey],
           z as [[]|[]| |[] mz ez];
    simpl; try congruence; try tauto; intros; sf_compare_cases.
Qed.

Lemma is_nan_false_spec (x : float) : is_nan x = false -> sf_not_nan (Prim2SF x).
Proof.
  unfold is_nan. rewrite eqb_spec. unfold SFeqb, SFcompare.
  destruct (Prim2SF x); simpl; intros; try exact I. discriminate.
Qed.

Lemma ltb_irrefl (x : float) : (x <? x)%float = false.
Proof. rewrite ltb_spec. apply SFltb_irrefl. Qed.

Lemma ltb_trans (x y z : float) :
  (x <? y)%float = true -> (y <? z)%float = true -> (x <? z)%float = true.
Proof. rewrite !ltb_spec. apply SFltb_trans. Qed.

Lemma ltb_negtrans (x y z : float) :
  is_nan x = false -> is_nan y = false -> is_nan z = false ->
  (x <? y)%float = false -> (y <? z)%float = false -> (x <? z)%float = false.
Proof.
  intros Hx Hy Hz. rewrite !ltb_spec.
  apply SFltb_negtrans; now apply is_nan_false_spec.
Qed.

Lemma fillna_neginf_not_nan (x : float) : is_nan (fillna_neginf x) = false.
Proof.
  unfold fillna_neginf. destruct (is_nan x) eqn:E; [reflexivity | exact E].
Qed.

Lemma fillna_neginf_id (x : float) : is_nan x = false -> fillna_neginf x = x.
Proof. unfold fillna_neginf. now intros ->. Qed.

Lemma ltb_nan_l (x y : float) : (x <? y)%float = true -> is_nan x = false.
Proof.
  unfold is_nan. rewrite ltb_spec, eqb_spec. unfold SFltb, SFeqb, SFcompare.
  destruct (Prim2SF x) as [[]|[]| |[] mx ex], (Prim2SF y) as [[]|[]| |[] my ey];
    simpl; try congruence; intros _;
    rewrite ?Z.compare_refl;
    change (Pos.compare_cont Eq mx mx) with (Pos.compare mx mx);
    rewrite ?Pos.compare_refl; reflexivity.
Qed.

Lemma map_fillna_neginf_id (xs : list float) :
  Forall (fun x => is_nan x = false) xs -> map fillna_neginf xs = xs.
Proof.
  induction 1 as [|x xs Hx _ IH]; simpl; [reflexivity|].
  now rewrite fillna_neginf_id, IH.
Qed.

Lemma Forall_fillna_neginf (xs : list float) :
  Forall (fun x => is_nan x = false) (map fillna_neginf xs).
Proof.
  induction xs; simpl; constructor; auto using fillna_neginf_not_nan.
Qed.

(* ================================================================== *)
(** ** The arg-max *)

Lemma argmax_from_first_max (xs : list float) :
  forall (pre : list float) (best_i : nat) (best : float),
    Forall (fun x => is_nan x = false) (pre ++ xs) ->
    nth_error pre best_i = Some best ->
    (forall j xj, nth_error pre j = Some xj -> (best <? xj)%float = false) ->
    (forall j xj, (j < best_i)%nat -> nth_error pre j = Some xj ->
                  (xj <? best)%float = true) ->
    first_max (pre ++ xs) (argmax_from best_i best (List.length pre) xs).
Proof.
  induction xs as [|x xs IH]; intros pre best_i best Hnan Hbest Hge Hlt.
  - rewrite app_nil_r. simpl. exists best. auto.
  - assert (Hlen : (best_i < List.length pre)%nat)
      by (apply nth_error_Some; congruence).
    assert (Hnan_pre : forall j xj, nth_error pre j = Some xj -> is_nan xj = false).
    { intros j xj Hj. rewrite Forall_forall in Hnan. apply Hnan.
      apply in_or_app. left. eapply nth_error_In; eauto. }
    assert (Hnan_x : is_nan x = false).
    { rewrite Forall_forall in Hnan. apply Hnan. apply in_or_app. right. now left. }
    replace (pre ++ x :: xs) with ((pre ++ [x]) ++ xs) in *
      by (rewrite <- app_assoc; reflexivity).
    simpl. replace (S (List.length pre)) with (List.length (pre ++ [x]))
      by (rewrite length_app; simpl; lia).
    destruct (best <? x)%float eqn:Hcmp.
    + assert (Hx : nth_error (pre ++ [x]) (List.length pre) = Some x)
        by (rewrite nth_error_app2, Nat.sub_diag by lia; reflexivity).
      apply IH; auto.
      * intros j xj Hj.
        destruct (Nat.lt_ge_cases j (List.length pre)) as [Hjl|Hjl].
        -- rewrite nth_error_app1 in Hj by lia.
           destruct (x <? xj)%float eqn:E; [|reflexivity].
           pose proof (ltb_trans _ _ _ Hcmp E) as Hc.
           specialize (Hge _ _ Hj). congruence.
        -- rewrite nth_error_app2 in Hj by lia.
           destruct (j - List.length pre)%nat as [|d]; simpl in Hj.
           ++ injection Hj as <-. apply ltb_irrefl.
           ++ destruct d; discriminate.
      * intros j xj Hjl Hj. rewrite nth_error_app1 in Hj by lia.
        destruct (xj <? x)%float eqn:E; [reflexivity|].
        pose proof (ltb_negtrans best xj x (Hnan_pre _ _ Hbest)
                      (Hnan_pre _ _ Hj) Hnan_x (Hge _ _ Hj) E).
        congruence.
    + apply IH; auto.
      * rewrite nth_error_app1 by lia. exact Hbest.
      * intros j xj Hj.
        destruct (Nat.lt_ge_cases j (List.length pre)) as [Hjl|Hjl].
        -- rewrite nth_error_app1 in Hj by lia. eauto.
        -- rewrite nth_error_app2 in Hj by lia.
           destruct (j - List.length pre)%nat as [|d]; simpl in Hj.
           ++ injection Hj as <-. exact Hcmp.
           ++ destruct d; discriminate.
      * intros j xj Hjl Hj. rewrite nth_error_app1 in Hj by lia. eauto.
Qed.

Lemma forallb_is_nan_false (xs : list float) (k : nat) (xk : float) :
  nth_error xs k = Some xk -> is_nan xk = false -> forallb is_nan xs = false.
Proof.
  intros Hk Hn. destruct (forallb is_nan xs) eqn:E; [|reflexivity].
  rewrite forallb_forall in E. rewrite (E xk) in Hn; [discriminate|].
  eapply nth_error_In; eauto.
Qed.

(** [idxmax] gives the first index of a greatest value (NaN counted as
    [-inf]). *)
Lemma idxmax_first_max (scores : list float) (k : nat) :
  idxmax scores = Ok (LInt k) -> first_max (map fillna_neginf scores) k.
Proof.
  unfold idxmax. destruct scores as [|s scores]; simpl; [discriminate|].
  destruct (is_nan s && forallb is_nan scores)%bool; [discriminate|].
  intros H. injection H as <-.
  apply (argmax_from_first_max (map fillna_neginf scores) [fillna_neginf s] 0).
  - apply (Forall_fillna_neginf (s :: scores)).
  - reflexivity.
  - intros [|[|j]] xj Hj; simpl in Hj; try discriminate.
    injection Hj as <-. apply ltb_irrefl.
  - intros j xj Hj. lia.
Qed.

(** It answers with an index as soon as one score is not NaN. *)
Lemma idxmax_total (scores : list float) (j : nat) (xj : float) :
  nth_error scores j = Some xj -> is_nan xj = false ->
  exists k, idxmax scores = Ok (LInt k).
Proof.
  intros Hj Hn. unfold idxmax.
  rewrite (forallb_is_nan_false _ _ _ Hj Hn).
  destruct scores as [|s scores]; [destruct j; discriminate|].
  simpl. eauto.
Qed.

Lemma unique_max_idxmax (scores : list float) (k : nat) :
  unique_max scores k -> idxmax scores = Ok (LInt k).
Proof.
  intros (xk & Hk & Hn & Huniq).
  destruct (idxmax_total _ _ _ Hk Hn) as [k' Hk'].
  rewrite Hk'. f_equal. f_equal.
  apply idxmax_first_max in Hk'.
  assert (Hall : Forall (fun x => is_nan x = false) scores).
  { rewrite Forall_forall. intros x Hx.
    destruct (In_nth_error _ _ Hx) as [j Hj].
    destruct (Nat.eq_dec j k) as [->|Hne]; [congruence|].
    eapply ltb_nan_l. eapply Huniq; eauto. }
  rewrite (map_fillna_neginf_id _ Hall) in Hk'.
  destruct Hk' as (xk' & Hxk' & Hge & _).
  destruct (Nat.eq_dec k' k) as [E|Hne]; [exact E|].
  specialize (Huniq _ _ Hne Hxk'). specialize (Hge _ _ Hk). congruence.
Qed.

(* ================================================================== *)
(** ** The Locator, run *)

Ltac case_scrutinee :=
  match goal with
  | |- context [match ?x with _ => _ end] =>
      lazymatch x with
      | context [match _ with _ => _ end] => fail
      | _ => destruct x eqn:?
      end
  end.

Ltac run_model :=
  unfold apply_afid_model, unpack3, chain_next, call_get_fid,
    call_gen_features, load, bind, emit, lift, ret, raise,
    in_generator, item_predict, item_getitem, item_back_project; simpl.

(** The result depends on the two path lists only through their [zip]. *)
Lemma apply_afid_model_zip W afid_num sp fp sp' fp' dir offs padding sr size :
  combine sp fp = combine sp' fp' ->
  apply_afid_model W afid_num sp fp dir offs padding sr size =
  apply_afid_model W afid_num sp' fp' dir offs padding sr size.
Proof. unfold apply_afid_model. now intros ->. Qed.

(** One subject: three calls, then the scores decide. *)
Lemma apply_afid_model_single W afid_num s f dir offs padding sr size fid T diff samples :
  get_fid W f (afid_num - 1) = Ok fid ->
  gen_features W s fid offs padding sr size = Ok (T, diff, samples) ->
  apply_afid_model W afid_num [s] [f] dir offs padding sr size =
  ([EvGetFid f (afid_num - 1); EvGenFeatures s padding sr size;
    EvLoad (mkPath dir (model_fname afid_num sr))],
   score_and_project W (mkPath dir (model_fname afid_num sr)) T diff samples).
Proof.
  intros Hfid Hgen. unfold score_and_project. run_model.
  rewrite Hfid. simpl. rewrite Hgen. simpl.
  repeat (case_scrutinee; simpl); reflexivity.
Qed.

(** No subject: the unpacking fails before anything is called. *)
Lemma apply_afid_model_none W afid_num sp fp dir offs padding sr size :
  combine sp fp = [] ->
  apply_afid_model W afid_num sp fp dir offs padding sr size =
  ([], Raise (ValueError "not enough values to unpack (expected 3, got 0)")).
Proof. unfold apply_afid_model. intros ->. reflexivity. Qed.

(** Two subjects or more: once the second triple is there, the unpacking
    fails; the model file is never asked for. *)
Lemma apply_afid_model_many W afid_num sp fp dir offs padding sr size
      s1 f1 s2 f2 rest fid1 t1 fid2 t2 :
  combine sp fp = (s1, f1) :: (s2, f2) :: rest ->
  get_fid W f1 (afid_num - 1) = Ok fid1 ->
  gen_features W s1 fid1 offs padding sr size = Ok t1 ->
  get_fid W f2 (afid_num - 1) = Ok fid2 ->
  gen_features W s2 fid2 offs padding sr size = Ok t2 ->
  apply_afid_model W afid_num sp fp dir offs padding sr size =
  ([EvGetFid f1 (afid_num - 1); EvGenFeatures s1 padding sr size;
    EvGetFid f2 (afid_num - 1); EvGenFeatures s2 padding sr size],
   Raise (ValueError "too many values to unpack (expected 3)")).
Proof.
  intros Hzip H1 H2 H3 H4. run_model. rewrite Hzip. simpl.
  rewrite H1. simpl. rewrite H2. destruct t1 as [[T1 d1] sm1]. simpl.
  rewrite H3. simpl. rewrite H4. destruct t2 as [[T2 d2] sm2]. reflexivity.
Qed.

(** A coordinate is returned only in the one-subject case. *)
Lemma apply_afid_model_Ok_inv W afid_num sp fp dir offs padding sr size c :
  outcome (apply_afid_model W afid_num sp fp dir offs padding sr size) = Ok c ->
  exists s f fid T diff samples,
    combine sp fp = [(s, f)] /\
    get_fid W f (afid_num - 1) = Ok fid /\
    gen_features W s fid offs padding sr size = Ok (T, diff, samples) /\
    score_and_project W (mkPath dir (model_fname afid_num sr)) T diff samples = Ok c.
Proof.
  intros H.
  destruct (combine sp fp) as [|[s f] [|[s2 f2] rest]] eqn:Hzip.
  - rewrite apply_afid_model_none in H by assumption. discriminate.
  - rewrite (apply_afid_model_zip _ _ sp fp [s] [f]) in H by (rewrite Hzip; reflexivity).
    destruct (get_fid W f (afid_num - 1)) as [fid|e] eqn:Hfid.
    + destruct (gen_features W s fid offs padding sr size) as [[[T diff] samples]|e] eqn:Hgen.
      * rewrite (apply_afid_model_single _ _ _ _ _ _ _ _ _ _ _ _ _ Hfid Hgen) in H.
        exists s, f, fid, T, diff, samples. auto.
      * revert H. run_model. rewrite Hfid. simpl. rewrite Hgen. discriminate.
    + revert H. run_model. rewrite Hfid. discriminate.
  - exfalso. revert H. run_model. rewrite Hzip. simpl.
    destruct (get_fid W f (afid_num - 1)) as [fid|e]; simpl; [|discriminate].
    destruct (gen_features W s fid offs padding sr size) as [[[T diff] samples]|e];
      simpl; [|discriminate].
    destruct (get_fid W f2 (afid_num - 1)) as [fid2|e]; simpl; [|discriminate].
    destruct (gen_features W s2 fid2 offs padding sr size) as [[[T2 diff2] samples2]|e];
      simpl; discriminate.
Qed.

(** The Locator never calls the writer, and asks joblib for at most one
    file: the one named after its own [sampling_rate] argument. *)
Lemma apply_afid_model_trace W afid_num sp fp dir offs padding sr size :
  let t := trace (apply_afid_model W afid_num sp fp dir offs padding sr size) in
  writes t = [] /\
  (loads t = [] \/ loads t = [mkPath dir (model_fname afid_num sr)]).
Proof.
  run_model.
  destruct (combine sp fp) as [|[s f] [|[s2 f2] rest]]; simpl; auto;
    repeat (case_scrutinee; simpl; auto).
Qed.

(** Under a diagonal block every kernel gives the same product. *)
Lemma back_project_diagonal W T v :
  diagonal_case T v = true ->
  back_project W T v
  = V3 (c0 (r0 T) * vx v + c3 (r0 T))%float
       (c1 (r1 T) * vy v + c3 (r1 T))%float
       (c2 (r2 T) * vz v + c3 (r2 T))%float.
Proof.
  unfold diagonal_case. rewrite !andb_true_iff, !negb_true_iff.
  intros [[[[[[[[[[[[[[H01 H02] H10] H12] H20] H21] N0] N1] N2] Fx] Fy] Fz] P0] P1] P2].
  unfold back_project, mat_dot, rotation, translation, vadd, np_dot_row. simpl.
  rewrite H01, H02, H10, H12, H20, H21, N0, N1, N2, Fx, Fy, Fz, P0, P1, P2.
  reflexivity.
Qed.

(* ================================================================== *)
(** ** Properties of [apply_afid_model] *)

(** C1. The claim: for every non-empty list of subjects the triples of all
    subjects are pooled and one coordinate is returned.  With two subjects
    the chained iterator yields six values for three names: the unpacking
    raises [ValueError] after the second subject's features were generated,
    and no coordinate is returned. *)
Theorem apply_afid_model_two_subjects_raises :
  apply_afid_model stub_world 1
    ["sub-01.nii.gz"; "sub-02.nii.gz"] ["sub-01.fcsv"; "sub-02.fcsv"]
    "models" ([], []) 0 5 1
  = ([EvGetFid "sub-01.fcsv" 0; EvGenFeatures "sub-01.nii.gz" 0 5 1;
      EvGetFid "sub-02.fcsv" 0; EvGenFeatures "sub-02.nii.gz" 0 5 1],
     Raise (ValueError "too many values to unpack (expected 3)")).
Proof. vm_compute. reflexivity. Qed.

(** C2. With the scores [predict] returned for the candidates, the Locator
    takes the first index [k] of a greatest score (a NaN score counting as
    [-inf], as pandas skips it) and its result is computed from the
    candidate [samples[k]]: the matrix product of the upper-left block of
    the transform with that candidate, plus the last column.  When one
    score is greater than all the others, the candidate at its index is the
    one used; under a diagonal block the result is, entry by entry,
    [scale * candidate + shift]. *)
Theorem apply_afid_model_argmax :
  forall W afid_num s f dir offs padding sr size fid T diff samples regr_rf scores,
    get_fid W f (afid_num - 1) = Ok fid ->
    gen_features W s fid offs padding sr size = Ok (T, diff, samples) ->
    model_store W (mkPath dir (model_fname afid_num sr)) = Some regr_rf ->
    predict regr_rf diff = Ok scores ->
    let r := outcome (apply_afid_model W afid_num [s] [f] dir offs padding sr size) in
    let block :=
      (V3 (c0 (r0 T)) (c1 (r0 T)) (c2 (r0 T)),
       V3 (c0 (r1 T)) (c1 (r1 T)) (c2 (r1 T)),
       V3 (c0 (r2 T)) (c1 (r2 T)) (c2 (r2 T))) in
    let world_coordinate := fun v =>
      V3 (vx (mat_dot W block v) + c3 (r0 T))%float
         (vy (mat_dot W block v) + c3 (r1 T))%float
         (vz (mat_dot W block v) + c3 (r2 T))%float in
    (forall j xj, nth_error scores j = Some xj -> is_nan xj = false ->
       exists k, first_max (map fillna_neginf scores) k /\
         match nth_error samples k with
         | Some v => r = Ok (world_coordinate v)
         | None => exists msg, r = Raise (IndexError msg)
         end) /\
    (forall c, r = Ok c ->
       exists k v, first_max (map fillna_neginf scores) k /\
         nth_error samples k = Some v /\ c = world_coordinate v) /\
    (forall k v, unique_max scores k -> nth_error samples k = Some v ->
       r = Ok (world_coordinate v) /\
       (diagonal_case T v = true ->
        r = Ok (V3 (c0 (r0 T) * vx v + c3 (r0 T))%float
                   (c1 (r1 T) * vy v + c3 (r1 T))%float
                   (c2 (r2 T) * vz v + c3 (r2 T))%float))).
Proof.
  intros W afid_num s f dir offs padding sr size fid T diff samples regr_rf scores
         Hfid Hgen Hstore Hpred r block world_coordinate.
  assert (Hr : r = match idxmax scores with
                   | Raise e => Raise e
                   | Ok idx => match getitem samples idx with
                               | Raise e => Raise e
                               | Ok v => Ok (world_coordinate v)
                               end
                   end).
  { subst r. rewrite (apply_afid_model_single _ _ _ _ _ _ _ _ _ _ _ _ _ Hfid Hgen).
    unfold outcome, score_and_project. simpl. now rewrite Hstore, Hpred. }
  split; [|split].
  - intros j xj Hj Hn. destruct (idxmax_total _ _ _ Hj Hn) as [k Hk].
    exists k. split; [now apply idxmax_first_max|].
    rewrite Hr, Hk. simpl. destruct (nth_error samples k); eauto.
  - intros c Hc. rewrite Hr in Hc.
    destruct (idxmax scores) as [[k|]|e] eqn:Hk; simpl in Hc; try discriminate.
    destruct (nth_error samples k) as [v|] eqn:Hv; [|discriminate].
    exists k, v. repeat split; auto using idxmax_first_max. congruence.
  - intros k v Hmax Hv.
    assert (Hrv : r = Ok (world_coordinate v))
      by (rewrite Hr, (unique_max_idxmax _ _ Hmax); simpl; now rewrite Hv).
    split; [exact Hrv|]. intros Hdiag. rewrite Hrv. f_equal.
    exact (back_project_diagonal W T v Hdiag).
Qed.

Lemma apply_afid_model_argmax_witness :
  get_fid scaled_world "sub-01.fcsv" (1 - 1) = Ok (V3 0 0 0) /\
  gen_features scaled_world "sub-01.nii.gz" (V3 0 0 0) ([], []) 0 5 1
    = Ok (scaling_affine, [[0]; [0]; [0]]%float, [V3 1 1 1; V3 2 2 2; V3 3 3 3]) /\
  model_store scaled_world (mkPath "models" (model_fname 1 5)) = Some stub_model /\
  predict stub_model [[0]; [0]; [0]]%float = Ok [0.1; 0.9; 0.4]%float /\
  unique_max [0.1; 0.9; 0.4]%float 1 /\
  nth_error [V3 1 1 1; V3 2 2 2; V3 3 3 3] 1 = Some (V3 2 2 2) /\
  diagonal_case scaling_affine (V3 2 2 2) = true /\
  outcome (apply_afid_model scaled_world 1 ["sub-01.nii.gz"] ["sub-01.fcsv"]
             "models" ([], []) 0 5 1)
    = Ok (V3 124.90000000000001 (-101.7) 8.5).
Proof.
  assert (Hmax : unique_max [0.1; 0.9; 0.4]%float 1).
  { exists 0.9%float. repeat split.
    intros [|[|[|j]]] xj Hne Hj; simpl in Hj.
    - injection Hj as <-. reflexivity.
    - congruence.
    - injection Hj as <-. reflexivity.
    - destruct j; discriminate. }
  do 4 (split; [reflexivity|]). split; [exact Hmax|].
  do 2 (split; [reflexivity|]).
  exact (proj2 (proj2 (proj2
    (apply_afid_model_argmax scaled_world 1 "sub-01.nii.gz" "sub-01.fcsv" "models"
       ([], []) 0 5 1 (V3 0 0 0) scaling_affine [[0]; [0]; [0]]%float
       [V3 1 1 1; V3 2 2 2; V3 3 3 3] stub_model [0.1; 0.9; 0.4]%float
       eq_refl eq_refl eq_refl eq_refl)) 1%nat (V3 2 2 2) Hmax eq_refl) eq_refl).
Defined.



(** C6. One subject, three candidates (1,1,1), (2,2,2), (3,3,3) under the
    identity transform, predicted scores [0.1, 0.9, 0.4]: the Locator
    returns (2,2,2). *)
Theorem apply_afid_model_end_to_end :
  forall W afid_num s f dir offs padding sr size fid diff regr_rf,
    get_fid W f (afid_num - 1) = Ok fid ->
    gen_features W s fid offs padding sr size
      = Ok (identity_affine, diff, [V3 1 1 1; V3 2 2 2; V3 3 3 3]) ->
    model_store W (mkPath dir (model_fname afid_num sr)) = Some regr_rf ->
    predict regr_rf diff = Ok [0.1; 0.9; 0.4]%float ->
    outcome (apply_afid_model W afid_num [s] [f] dir offs padding sr size)
      = Ok (V3 2 2 2).
Proof.
  intros W afid_num s f dir offs padding sr size fid diff regr_rf
         Hfid Hgen Hstore Hpred.
  rewrite (apply_afid_model_single _ _ _ _ _ _ _ _ _ _ _ _ _ Hfid Hgen).
  unfold outcome, score_and_project. simpl. rewrite Hstore, Hpred.
  vm_compute. reflexivity.
Qed.

Lemma apply_afid_model_end_to_end_witness :
  get_fid stub_world "sub-01.fcsv" (1 - 1) = Ok (V3 0 0 0) /\
  gen_features stub_world "sub-01.nii.gz" (V3 0 0 0) ([], []) 0 5 1
    = Ok (identity_affine, [[0]; [0]; [0]]%float, [V3 1 1 1; V3 2 2 2; V3 3 3 3]) /\
  model_store stub_world (mkPath "models" (model_fname 1 5)) = Some stub_model /\
  predict stub_model [[0]; [0]; [0]]%float = Ok [0.1; 0.9; 0.4]%float /\
  outcome (apply_afid_model stub_world 1 ["sub-01.nii.gz"] ["sub-01.fcsv"]
             "models" ([], []) 0 5 1) = Ok (V3 2 2 2).
Proof.
  do 4 (split; [reflexivity|]).
  apply (apply_afid_model_end_to_end stub_world 1 "sub-01.nii.gz" "sub-01.fcsv"
           "models" ([], []) 0 5 1 (V3 0 0 0) [[0]; [0]; [0]]%float stub_model);
    reflexivity.
Defined.

(** C7, as claimed: an empty subject list makes the Locator fail with
    [EmptyCandidateSetError].  It does not: the exception is a
    [ValueError]. *)
Lemma apply_afid_model_empty_not_EmptyCandidateSetError :
  ~ fails_with "EmptyCandidateSetError"
      (apply_afid_model stub_world 1 [] [] "models" ([], []) 0 5 1).
Proof.
  intros (e & He & Hcls). vm_compute in He. injection He as <-.
  discriminate Hcls.
Qed.

(** C7, amended.  With no (subject, seed) pair the unpacking of the three
    names fails with [ValueError] before any collaborator is called; with
    one subject and an empty score array [idxmax] fails with [ValueError].
    No coordinate is returned in either case. *)
Theorem apply_afid_model_empty_raises_ValueError :
  forall W afid_num dir offs padding sr size,
    (forall sp fp, combine sp fp = [] ->
       apply_afid_model W afid_num sp fp dir offs padding sr size
       = ([], Raise (ValueError "not enough values to unpack (expected 3, got 0)"))) /\
    (forall s f fid T diff samples regr_rf,
       get_fid W f (afid_num - 1) = Ok fid ->
       gen_features W s fid offs padding sr size = Ok (T, diff, samples) ->
       model_store W (mkPath dir (model_fname afid_num sr)) = Some regr_rf ->
       predict regr_rf diff = Ok [] ->
       outcome (apply_afid_model W afid_num [s] [f] dir offs padding sr size)
       = Raise (ValueError "attempt to get argmax of an empty sequence")).
Proof.
  intros W afid_num dir offs padding sr size. split.
  - intros sp fp Hzip. now apply apply_afid_model_none.
  - intros s f fid T diff samples regr_rf Hfid Hgen Hstore Hpred.
    rewrite (apply_afid_model_single _ _ _ _ _ _ _ _ _ _ _ _ _ Hfid Hgen).
    unfold outcome, score_and_project. simpl. now rewrite Hstore, Hpred.
Qed.

Lemma apply_afid_model_empty_raises_ValueError_witness :
  combine (@nil string) (@nil string) = [] /\
  apply_afid_model no_candidate_world 1 [] [] "models" ([], []) 0 5 1
    = ([], Raise (ValueError "not enough values to unpack (expected 3, got 0)")) /\
  get_fid no_candidate_world "sub-01.fcsv" (1 - 1) = Ok (V3 0 0 0) /\
  gen_features no_candidate_world "sub-01.nii.gz" (V3 0 0 0) ([], []) 0 5 1
    = Ok (identity_affine, [], []) /\
  outcome (apply_afid_model no_candidate_world 1 ["sub-01.nii.gz"] ["sub-01.fcsv"]
             "models" ([], []) 0 5 1)
    = Raise (ValueError "attempt to get argmax of an empty sequence").
Proof.
  pose proof (apply_afid_model_empty_raises_ValueError
                no_candidate_world 1 "models" ([], []) 0 5 1) as [H0 H1].
  split; [reflexivity|]. split; [exact (H0 [] [] eq_refl)|].
  do 2 (split; [reflexivity|]).
  exact (H1 "sub-01.nii.gz" "sub-01.fcsv" (V3 0 0 0) identity_affine [] []
              {| predict := fun d => Ok (map (fun _ => 0%float) d) |}
           eq_refl eq_refl eq_refl eq_refl).
Defined.

(** C9, as claimed: a missing model file makes the Locator fail with
    [ModelNotFoundError].  It does not: the exception is the
    [FileNotFoundError] of [joblib.load]. *)
Lemma apply_afid_model_missing_model_not_ModelNotFoundError :
  model_store no_model_world (mkPath "models" (model_fname 1 5)) = None /\
  ~ fails_with "ModelNotFoundError"
      (apply_afid_model no_model_world 1 ["sub-01.nii.gz"] ["sub-01.fcsv"]
         "models" ([], []) 0 5 1).
Proof.
  split; [reflexivity|].
  intros (e & He & Hcls). vm_compute in He. injection He as <-.
  discriminate Hcls.
Qed.

(** C9, amended.  When the model file of the landmark is absent, the
    Locator returns no coordinate; once the features of its subject are
    generated, it asks joblib for the file and fails with
    [FileNotFoundError] on that path. *)
Theorem apply_afid_model_missing_model :
  forall W afid_num dir offs padding sr size,
    model_store W (mkPath dir (model_fname afid_num sr)) = None ->
    (forall sp fp, exists e,
       outcome (apply_afid_model W afid_num sp fp dir offs padding sr size) = Raise e) /\
    (forall s f fid t,
       get_fid W f (afid_num - 1) = Ok fid ->
       gen_features W s fid offs padding sr size = Ok t ->
       apply_afid_model W afid_num [s] [f] dir offs padding sr size
       = ([EvGetFid f (afid_num - 1); EvGenFeatures s padding sr size;
           EvLoad (mkPath dir (model_fname afid_num sr))],
          Raise (FileNotFoundError (mkPath dir (model_fname afid_num sr)))) /\
       fails_with "FileNotFoundError"
         (apply_afid_model W afid_num [s] [f] dir offs padding sr size)).
Proof.
  intros W afid_num dir offs padding sr size Hstore.
  assert (Hone : forall s f fid t,
    get_fid W f (afid_num - 1) = Ok fid ->
    gen_features W s fid offs padding sr size = Ok t ->
    apply_afid_model W afid_num [s] [f] dir offs padding sr size
    = ([EvGetFid f (afid_num - 1); EvGenFeatures s padding sr size;
        EvLoad (mkPath dir (model_fname afid_num sr))],
       Raise (FileNotFoundError (mkPath dir (model_fname afid_num sr))))).
  { intros s f fid [[T diff] samples] Hfid Hgen.
    rewrite (apply_afid_model_single _ _ _ _ _ _ _ _ _ _ _ _ _ Hfid Hgen).
    unfold score_and_project. now rewrite Hstore. }
  split.
  - intros sp fp.
    destruct (outcome (apply_afid_model W afid_num sp fp dir offs padding sr size))
      as [c|e] eqn:H; [|eauto].
    destruct (apply_afid_model_Ok_inv _ _ _ _ _ _ _ _ _ _ H)
      as (s & f & fid & T & diff & samples & _ & _ & _ & Hsc).
    unfold score_and_project in Hsc. rewrite Hstore in Hsc. discriminate.
  - intros s f fid t Hfid Hgen. split; [now apply (Hone s f fid t)|].
    eexists. rewrite (Hone s f fid t Hfid Hgen). split; reflexivity.
Qed.

Lemma apply_afid_model_missing_model_witness :
  model_store no_model_world (mkPath "models" (model_fname 1 5)) = None /\
  fails_with "FileNotFoundError"
    (apply_afid_model no_model_world 1 ["sub-01.nii.gz"] ["sub-01.fcsv"]
       "models" ([], []) 0 5 1).
Proof.
  split; [reflexivity|].
  exact (proj2 (proj2 (apply_afid_model_missing_model no_model_world 1 "models"
                         ([], []) 0 5 1 eq_refl)
                  "sub-01.nii.gz" "sub-01.fcsv" (V3 0 0 0)
                  (identity_affine, [[0]; [0]; [0]]%float,
                   [V3 1 1 1; V3 2 2 2; V3 3 3 3]) eq_refl eq_refl)).
Defined.

(* ================================================================== *)
(** ** The landmark loop *)

Lemma In_range (lo hi n : Z) : In n (range lo hi) <-> lo <= n < hi.
Proof.
  unfold range. rewrite in_map_iff. split.
  - intros (k & <- & Hk). apply in_seq in Hk. lia.
  - intros H. exists (Z.to_nat (n - lo)). split; [lia|].
    apply in_seq. lia.
Qed.

Lemma nth_error_range (lo hi : Z) (i : nat) :
  nth_error (range lo hi) i
  = if (i <? Z.to_nat (hi - lo))%nat then Some (lo + Z.of_nat i) else None.
Proof.
  unfold range. rewrite nth_error_map, nth_error_seq.
  now destruct (i <? Z.to_nat (hi - lo))%nat.
Qed.

Lemma Forall2_nth_error {A B} (P : A -> B -> Prop) (xs : list A) (ys : list B) :
  Forall2 P xs ys ->
  forall i x y, nth_error xs i = Some x -> nth_error ys i = Some y -> P x y.
Proof.
  induction 1 as [|x0 y0 xs ys H0 _ IH]; intros [|i] x y Hx Hy;
    simpl in *; try discriminate.
  - congruence.
  - eauto.
Qed.

Lemma writes_app (t1 t2 : list event) : writes (t1 ++ t2) = writes t1 ++ writes t2.
Proof. apply flat_map_app. Qed.

Lemma loads_app (t1 t2 : list event) : loads (t1 ++ t2) = loads t1 ++ loads t2.
Proof. apply flat_map_app. Qed.

Section Aggregator.
Variable W : World.
Variables subject_paths fcsv_paths : list string.
Variable model_dir_path : string.
Variables padding size sampling_rate : Z.

(** The Locator call the loop makes for a landmark: the run's [size]
  and [sampling_rate] land in this order after [padding]. *)
Local Abbreviation locate offs afid_num :=
(apply_afid_model W afid_num subject_paths fcsv_paths model_dir_path
   offs padding size sampling_rate).

Local Abbreviation loop archive afid_nums acc :=
(afid_loop W subject_paths fcsv_paths model_dir_path archive
   padding size sampling_rate afid_nums acc).

(** The loop never calls the writer and asks joblib only for files named
    after a landmark of the loop and the run's [size]. *)
Lemma afid_loop_trace (archive : npz) (afid_nums : list Z) :
  forall acc,
    writes (trace (loop archive afid_nums acc)) = [] /\
    Forall (fun p => exists n, In n afid_nums /\
                       p = mkPath model_dir_path (model_fname n size))
           (loads (trace (loop archive afid_nums acc))).
Proof.
  induction afid_nums as [|n rest IH]; intros acc; simpl; [auto|].
  destruct (npz_get archive "arr_0") as [a0|e0]; simpl; [|auto].
  destruct (npz_get archive "arr_1") as [a1|e1]; simpl; [|auto].
  pose proof (apply_afid_model_trace W n subject_paths fcsv_paths model_dir_path
                (a0, a1) padding size sampling_rate) as [Hw Hl].
  destruct (apply_afid_model W n subject_paths fcsv_paths model_dir_path
              (a0, a1) padding size sampling_rate) as [t [c|e]]; simpl in *.
  - destruct (IH (acc ++ [c])) as [IHw IHl].
    destruct (afid_loop W subject_paths fcsv_paths model_dir_path archive
                padding size sampling_rate rest (acc ++ [c])) as [t' r'].
    simpl in *. rewrite writes_app, loads_app, Hw, IHw. split; [reflexivity|].
    apply Forall_app. split.
    + destruct Hl as [-> | ->]; repeat constructor. exists n. auto.
    + eapply Forall_impl; [|exact IHl]. intros p (m & Hm & ->). eauto.
  - split; [exact Hw|].
    destruct Hl as [-> | ->]; repeat constructor. exists n. auto.
Qed.

(** Either every landmark of the loop is located and the coordinates are
    stacked below the rows already there, in the order of the loop; or
    the loop raises the exception of a Locator call. *)
Lemma afid_loop_outcome (archive : npz) (a0 a1 : ndarray) :
  npz_get archive "arr_0" = Ok a0 ->
  npz_get archive "arr_1" = Ok a1 ->
  forall afid_nums acc,
    (exists coords,
        Forall2 (fun n c => outcome (locate (a0, a1) n) = Ok c) afid_nums coords /\
        outcome (loop archive afid_nums acc) = Ok (acc ++ coords)) \/
    (exists n e,
        In n afid_nums /\ outcome (locate (a0, a1) n) = Raise e /\
        outcome (loop archive afid_nums acc) = Raise e).
Proof.
  intros H0 H1. induction afid_nums as [|n rest IH]; intros acc.
  - left. exists []. split; [constructor|]. simpl. now rewrite app_nil_r.
  - simpl. rewrite H0, H1. simpl.
    destruct (apply_afid_model W n subject_paths fcsv_paths model_dir_path
                (a0, a1) padding size sampling_rate) as [t [c|e]] eqn:Hn; simpl.
    + destruct (IH (acc ++ [c])) as [(coords & Hall & Hout) | (m & e & Hm & He & Hout)].
      * left. exists (c :: coords). split.
        -- constructor; [now rewrite Hn|exact Hall].
        -- destruct (afid_loop W subject_paths fcsv_paths model_dir_path archive
                       padding size sampling_rate rest (acc ++ [c])) as [t' r'].
           simpl in *. rewrite Hout, <- app_assoc. reflexivity.
      * right. exists m, e. repeat split; auto.
        destruct (afid_loop W subject_paths fcsv_paths model_dir_path archive
                    padding size sampling_rate rest (acc ++ [c])) as [t' r'].
        exact Hout.
    + right. exists n, e. repeat split; auto. now rewrite Hn.
Qed.

(** The whole run, once the offset archive is read. *)
Lemma apply_all_afid_models_run (feature_offsets_path : string) (archive : npz) :
  np_load W feature_offsets_path = Ok archive ->
  apply_all_afid_models W subject_paths fcsv_paths feature_offsets_path
    model_dir_path padding size sampling_rate
  = match loop archive (range 1 33) [np_empty3 W] with
    | (t, Ok all_afids_coords) =>
        (EvNpLoad feature_offsets_path :: t
           ++ [EvWrite (map astype_int3 (tl all_afids_coords))],
         afids_to_fcsv W (map astype_int3 (tl all_afids_coords)))
    | (t, Raise e) => (EvNpLoad feature_offsets_path :: t, Raise e)
    end.
Proof.
  intros Hload. unfold apply_all_afid_models.
  remember (range 1 33) as afid_nums eqn:Hnums. clear Hnums.
  unfold call_np_load, call_afids_to_fcsv, bind, emit, lift. simpl.
  rewrite Hload. simpl.
  destruct (afid_loop W subject_paths fcsv_paths model_dir_path archive
              padding size sampling_rate afid_nums [np_empty3 W])
    as [t [all|e]]; simpl; [|reflexivity].
  destruct (afids_to_fcsv W (map astype_int3 (tl all))); reflexivity.
Qed.

(** What the writer is given, if anything: the 32 Locator results in the
    order of the landmarks, each component cast to an integer. *)
Lemma apply_all_afid_models_writes (feature_offsets_path : string)
      (archive : npz) (a0 a1 : ndarray) :
  np_load W feature_offsets_path = Ok archive ->
  npz_get archive "arr_0" = Ok a0 ->
  npz_get archive "arr_1" = Ok a1 ->
  let run := apply_all_afid_models W subject_paths fcsv_paths
               feature_offsets_path model_dir_path padding size sampling_rate in
  (exists coords,
      Forall2 (fun n c => outcome (locate (a0, a1) n) = Ok c) (range 1 33) coords /\
      writes (trace run) = [map astype_int3 coords] /\
      outcome run = afids_to_fcsv W (map astype_int3 coords)) \/
  (exists n e,
      1 <= n <= 32 /\ outcome (locate (a0, a1) n) = Raise e /\
      writes (trace run) = [] /\ outcome run = Raise e).
Proof.
  intros Hload H0 H1 run. subst run.
  rewrite (apply_all_afid_models_run _ _ Hload).
  destruct (afid_loop_trace archive (range 1 33) [np_empty3 W]) as [Hw _].
  destruct (afid_loop_outcome archive a0 a1 H0 H1 (range 1 33) [np_empty3 W])
    as [(coords & Hall & Hout) | (n & e & Hn & He & Hout)];
    destruct (loop archive (range 1 33) [np_empty3 W]) as [t r];
    simpl in Hw, Hout; subst r.
  - left. exists coords. simpl. unfold trace, outcome. simpl.
    rewrite writes_app, Hw. auto.
  - right. exists n, e. apply In_range in Hn. unfold trace, outcome. simpl.
    repeat split; auto; lia.
Qed.

(** Every file the run asks joblib for is named after one of the 32
    landmarks and after the run's [size]. *)
Lemma apply_all_afid_models_loads (feature_offsets_path : string) :
  Forall (fun p => exists n, 1 <= n <= 32 /\
                     p = mkPath model_dir_path (model_fname n size))
         (loads (trace (apply_all_afid_models W subject_paths fcsv_paths
                          feature_offsets_path model_dir_path
                          padding size sampling_rate))).
Proof.
  destruct (np_load W feature_offsets_path) as [archive|e] eqn:Hload.
  - rewrite (apply_all_afid_models_run _ _ Hload).
    destruct (afid_loop_trace archive (range 1 33) [np_empty3 W]) as [_ Hl].
    assert (Hl' : Forall (fun p => exists n, 1 <= n <= 32 /\
                            p = mkPath model_dir_path (model_fname n size))
                    (loads (trace (loop archive (range 1 33) [np_empty3 W])))).
    { eapply Forall_impl; [|exact Hl]. intros p (n & Hn & ->).
      apply In_range in Hn. exists n. split; [lia|reflexivity]. }
    destruct (loop archive (range 1 33) [np_empty3 W]) as [t [all|e]];
      unfold trace in *; simpl in *; [|exact Hl'].
    rewrite loads_app, app_nil_r. exact Hl'.
  - unfold apply_all_afid_models, call_np_load, bind, emit, lift. simpl.
    rewrite Hload. constructor.
Qed.

(** The rows of a table given to the writer. *)
Lemma apply_all_afid_models_rows (feature_offsets_path : string)
      (archive : npz) (a0 a1 : ndarray) :
  np_load W feature_offsets_path = Ok archive ->
  npz_get archive "arr_0" = Ok a0 ->
  npz_get archive "arr_1" = Ok a1 ->
  forall table,
    In table (writes (trace (apply_all_afid_models W subject_paths fcsv_paths
                               feature_offsets_path model_dir_path
                               padding size sampling_rate))) ->
    List.length table = 32%nat /\
    forall i row, nth_error table i = Some row ->
      exists c, outcome (locate (a0, a1) (Z.of_nat i + 1)) = Ok c /\
                row = astype_int3 c.
Proof.
  intros Hload H0 H1 table Hin.
  destruct (apply_all_afid_models_writes _ _ _ _ Hload H0 H1)
    as [(coords & Hall & Hw & _) | (n & e & _ & _ & Hw & _)];
    rewrite Hw in Hin; [|destruct Hin].
  destruct Hin as [<-|[]].
  assert (Hlen : List.length coords = 32%nat)
    by (rewrite <- (Forall2_length Hall); reflexivity).
  split.
  - now rewrite length_map.
  - intros i row Hrow. rewrite nth_error_map in Hrow.
    destruct (nth_error coords i) as [c|] eqn:Hc; [|discriminate].
    injection Hrow as <-. exists c. split; [|reflexivity].
    assert (Hi : (i < 32)%nat)
      by (rewrite <- Hlen; apply nth_error_Some; congruence).
    assert (Hn : nth_error (range 1 33) i = Some (Z.of_nat i + 1)).
    { rewrite nth_error_range. change (Z.to_nat (33 - 1)) with 32%nat.
      destruct (Nat.ltb_spec i 32); [f_equal; lia|lia]. }
    exact (Forall2_nth_error _ _ _ Hall _ _ _ Hn Hc).
Qed.
End Aggregator.

(** The cast keeps the sign and the whole part of the magnitude
    [m * 2^e], whenever that whole part fits. *)
Lemma astype_int_whole_part (x : float) (s : bool) (m : positive) (e q : Z) :
  Prim2SF x = S754_finite s m e ->
  0 <= q <= int64_max ->
  (0 <= e -> q = Zpos m * 2 ^ e) ->
  (e < 0 -> q * 2 ^ (- e) <= Zpos m < (q + 1) * 2 ^ (- e)) ->
  astype_int x = if s then - q else q.
Proof.
  intros Hx Hq Hpos Hneg. unfold astype_int. rewrite Hx. cbv zeta.
  assert (Hshift : Z.shiftl (Z.pos m) e = q).
  { destruct (Z.lt_ge_cases e 0) as [He|He].
    - rewrite Z.shiftl_div_pow2 by lia. specialize (Hneg He).
      assert (Hb : 0 < 2 ^ (- e)) by (apply Z.pow_pos_nonneg; lia).
      symmetry. apply (Z.div_unique _ _ _ (Z.pos m - q * 2 ^ (- e))); lia.
    - rewrite Z.shiftl_mul_pow2 by lia. symmetry. auto. }
  rewrite Hshift. unfold int64_min, int64_max in *.
  destruct s;
    repeat match goal with
    | |- context [Z.leb ?u ?v] => destruct (Z.leb_spec u v) as [?|?]
    end; simpl; lia.
Qed.

Lemma astype_int_zero (x : float) (s : bool) :
  Prim2SF x = S754_zero s -> astype_int x = 0.
Proof. intros Hx. unfold astype_int. now rewrite Hx. Qed.

(** The loop and the run depend on the two path lists only through their
    [zip]. *)
Lemma afid_loop_zip W sp fp sp' fp' dir archive padding size sr :
  combine sp fp = combine sp' fp' ->
  forall afid_nums acc,
    afid_loop W sp fp dir archive padding size sr afid_nums acc =
    afid_loop W sp' fp' dir archive padding size sr afid_nums acc.
Proof.
  intros Hzip. induction afid_nums as [|n rest IH]; intros acc; simpl;
    [reflexivity|].
  destruct (npz_get archive "arr_0") as [a0|e0]; simpl; [|reflexivity].
  destruct (npz_get archive "arr_1") as [a1|e1]; simpl; [|reflexivity].
  rewrite (apply_afid_model_zip W n sp fp sp' fp' dir (a0, a1) padding size sr Hzip).
  destruct (apply_afid_model W n sp' fp' dir (a0, a1) padding size sr)
    as [t [c|e]]; simpl; [rewrite IH|]; reflexivity.
Qed.

Lemma apply_all_afid_models_zip W sp fp sp' fp' offsets_path dir padding size sr :
  combine sp fp = combine sp' fp' ->
  apply_all_afid_models W sp fp offsets_path dir padding size sr =
  apply_all_afid_models W sp' fp' offsets_path dir padding size sr.
Proof.
  intros Hzip. unfold apply_all_afid_models.
  remember (range 1 33) as afid_nums eqn:Hnums. clear Hnums.
  unfold call_np_load, bind, emit, lift. simpl.
  destruct (np_load W offsets_path) as [archive|e]; simpl; [|reflexivity].
  now rewrite (afid_loop_zip W sp fp sp' fp' dir archive padding size sr Hzip).
Qed.

(* ================================================================== *)
(** ** Properties of [apply_all_afid_models] *)

(** C4. The claim: the model files are named after the run's sampling rate
    [r], never after the resampling size [s].  The run with the default
    [size = 1] and [sampling_rate = 5] asks for the 32 files named
    [...iso1vox...]: the two values are passed to the Locator in the order
    [size, sampling_rate], where it expects [sampling_rate, size], so every
    file a run asks for is named after a landmark and the run's [size].  In a
    model directory that holds the 32 [...iso5vox...] files, the run stops
    at the first landmark with [FileNotFoundError]. *)
Theorem apply_all_afid_models_loads_named_by_size :
  (forall W sp fp offsets_path dir padding size sr,
     Forall (fun p => exists n, 1 <= n <= 32 /\
                        p = mkPath dir (model_fname n size))
            (loads (trace (apply_all_afid_models W sp fp offsets_path dir
                             padding size sr)))) /\
  loads (trace (apply_all_afid_models stub_world
                  ["sub-01.nii.gz"] ["sub-01.fcsv"]
                  "feature_offsets.npz" "models" 0 1 5))
    = map (fun n => mkPath "models" (model_fname n 1)) (range 1 33) /\
  model_fname 1 1 = "afid-01_desc-rf_sampleRate-iso1vox_model.joblib" /\
  model_fname 1 5 = "afid-01_desc-rf_sampleRate-iso5vox_model.joblib" /\
  model_store iso5_world (mkPath "models" (model_fname 1 5)) <> None /\
  apply_all_afid_models iso5_world ["sub-01.nii.gz"] ["sub-01.fcsv"]
    "feature_offsets.npz" "models" 0 1 5
    = ([EvNpLoad "feature_offsets.npz"; EvGetFid "sub-01.fcsv" 0;
        EvGenFeatures "sub-01.nii.gz" 0 1 5;
        EvLoad (mkPath "models" (model_fname 1 1))],
       Raise (FileNotFoundError (mkPath "models" (model_fname 1 1)))).
Proof.
  split; [intros; apply apply_all_afid_models_loads|].
  repeat split; try (vm_compute; reflexivity).
  vm_compute. discriminate.
Qed.

(** C5. A run that ends normally has given the writer one table: 32 rows,
    the row of index [i] holding the three components of the Locator's
    coordinate for landmark [i + 1], each cast to an integer (the sign and
    the whole part of the float).  The same table is given whenever the 32
    Locator calls succeed.  If the Locator call of any landmark raises, the
    run raises and the writer is never called. *)
Theorem apply_all_afid_models_table :
  forall W sp fp offsets_path dir padding size sr archive a0 a1,
    np_load W offsets_path = Ok archive ->
    npz_get archive "arr_0" = Ok a0 ->
    npz_get archive "arr_1" = Ok a1 ->
    let locate := fun n => apply_afid_model W n sp fp dir (a0, a1) padding size sr in
    let run := apply_all_afid_models W sp fp offsets_path dir padding size sr in
    let written := fun coords =>
      List.length coords = 32%nat /\
      (forall i c, nth_error coords i = Some c ->
                   outcome (locate (Z.of_nat i + 1)) = Ok c) /\
      writes (trace run)
      = [map (fun c => IV3 (astype_int (vx c)) (astype_int (vy c))
                           (astype_int (vz c))) coords] in
    (outcome run = Ok tt -> exists coords, written coords) /\
    ((forall n, 1 <= n <= 32 -> exists c, outcome (locate n) = Ok c) ->
       exists coords, written coords) /\
    (forall n e, 1 <= n <= 32 -> outcome (locate n) = Raise e ->
       writes (trace run) = [] /\ exists e', outcome run = Raise e') /\
    (forall x s m e q,
       Prim2SF x = S754_finite s m e -> 0 <= q <= int64_max ->
       (0 <= e -> q = Zpos m * 2 ^ e) ->
       (e < 0 -> q * 2 ^ (- e) <= Zpos m < (q + 1) * 2 ^ (- e)) ->
       astype_int x = if s then - q else q).
Proof.
  intros W sp fp offsets_path dir padding size sr archive a0 a1 Hload H0 H1
         locate run written.
  destruct (apply_all_afid_models_writes W sp fp dir padding size sr
              offsets_path archive a0 a1 Hload H0 H1)
    as [(coords & Hall & Hw & Hout) | (n & e & Hn & He & Hw & Hout)];
    fold run in Hw, Hout.
  - assert (Hwritten : written coords).
    { unfold written. split; [|split].
      - rewrite <- (Forall2_length Hall). reflexivity.
      - intros i c Hc.
        assert (Hi : (i < List.length (range 1 33))%nat)
          by (rewrite (Forall2_length Hall); apply nth_error_Some; congruence).
        assert (Hn : nth_error (range 1 33) i = Some (Z.of_nat i + 1)).
        { rewrite nth_error_range. change (Z.to_nat (33 - 1)) with 32%nat.
          change (List.length (range 1 33)) with 32%nat in Hi.
          destruct (Nat.ltb_spec i 32); [f_equal; lia|lia]. }
        exact (Forall2_nth_error _ _ _ Hall _ _ _ Hn Hc).
      - exact Hw. }
    split; [intros _; eauto|]. split; [intros _; eauto|].
    split; [|exact astype_int_whole_part].
    intros n e Hn He. exfalso.
    assert (Hin : In n (range 1 33)) by (apply In_range; lia).
    destruct (In_nth_error _ _ Hin) as [i Hi].
    assert (Hc : exists c, nth_error coords i = Some c).
    { destruct (nth_error coords i) eqn:E; [eauto|].
      apply nth_error_None in E. rewrite <- (Forall2_length Hall) in E.
      apply nth_error_None in E. congruence. }
    destruct Hc as [c Hc].
    pose proof (Forall2_nth_error _ _ _ Hall _ _ _ Hi Hc) as Hok.
    simpl in Hok. unfold locate in He. congruence.
  - split; [intros Hok; congruence|].
    split.
    + intros Hall. destruct (Hall n Hn) as [c Hc]. unfold locate in Hc. congruence.
    + split; [|exact astype_int_whole_part].
      intros n' e' _ _. split; [exact Hw|eauto].
Qed.

Lemma apply_all_afid_models_table_witness :
  np_load scaled_world "feature_offsets.npz" = Ok [("arr_0", []); ("arr_1", [])] /\
  npz_get [("arr_0", []); ("arr_1", [])] "arr_0" = Ok [] /\
  npz_get [("arr_0", []); ("arr_1", [])] "arr_1" = Ok [] /\
  outcome (apply_all_afid_models scaled_world ["sub-01.nii.gz"] ["sub-01.fcsv"]
             "feature_offsets.npz" "models" 0 5 5) = Ok tt /\
  outcome (apply_afid_model scaled_world 32 ["sub-01.nii.gz"] ["sub-01.fcsv"]
             "models" ([], []) 0 5 5) = Ok (V3 124.90000000000001 (-101.7) 8.5) /\
  writes (trace (apply_all_afid_models scaled_world ["sub-01.nii.gz"]
                   ["sub-01.fcsv"] "feature_offsets.npz" "models" 0 5 5))
    = [repeat (IV3 124 (-101) 8) 32] /\
  exists coords,
    List.length coords = 32%nat /\
    (forall i c, nth_error coords i = Some c ->
       outcome (apply_afid_model scaled_world (Z.of_nat i + 1) ["sub-01.nii.gz"]
                  ["sub-01.fcsv"] "models" ([], []) 0 5 5) = Ok c) /\
    writes (trace (apply_all_afid_models scaled_world ["sub-01.nii.gz"]
                     ["sub-01.fcsv"] "feature_offsets.npz" "models" 0 5 5))
    = [map (fun c => IV3 (astype_int (vx c)) (astype_int (vy c))
                         (astype_int (vz c))) coords].
Proof.
  do 3 (split; [reflexivity|]).
  assert (Hok : outcome (apply_all_afid_models scaled_world ["sub-01.nii.gz"]
                           ["sub-01.fcsv"] "feature_offsets.npz" "models" 0 5 5)
                = Ok tt) by (vm_compute; reflexivity).
  split; [exact Hok|].
  split; [vm_compute; reflexivity|]. split; [vm_compute; reflexivity|].
  exact (proj1 (apply_all_afid_models_table scaled_world ["sub-01.nii.gz"]
                  ["sub-01.fcsv"] "feature_offsets.npz" "models" 0 5 5
                  [("arr_0", []); ("arr_1", [])] [] [] eq_refl eq_refl eq_refl)
           Hok).
Defined.

(** C8, as claimed: lists of different lengths make the run fail with
    [MismatchedInputLengthError].  They do not: with one subject and two
    seed files the Locator returns a coordinate. *)
Lemma apply_afid_model_mismatch_returns :
  outcome (apply_afid_model stub_world 1 ["sub-01.nii.gz"]
             ["sub-01.fcsv"; "sub-02.fcsv"] "models" ([], []) 0 5 1)
    = Ok (V3 2 2 2) /\
  ~ fails_with "MismatchedInputLengthError"
      (apply_afid_model stub_world 1 ["sub-01.nii.gz"]
         ["sub-01.fcsv"; "sub-02.fcsv"] "models" ([], []) 0 5 1).
Proof.
  split; [vm_compute; reflexivity|].
  intros (e & He & _). vm_compute in He. discriminate He.
Qed.

(** C8, amended.  The two lists are paired by [zip]: the Locator, and so
    the whole run, does exactly what it does on both lists cut to the
    length of the shorter one, the same calls and the same result. *)
Theorem apply_afid_model_zip_shorter :
  forall W sp fp dir offs padding sr size,
    let n := Nat.min (List.length sp) (List.length fp) in
    (forall afid_num,
       apply_afid_model W afid_num sp fp dir offs padding sr size =
       apply_afid_model W afid_num (firstn n sp) (firstn n fp) dir offs
         padding sr size) /\
    (forall offsets_path,
       apply_all_afid_models W sp fp offsets_path dir padding size sr =
       apply_all_afid_models W (firstn n sp) (firstn n fp) offsets_path dir
         padding size sr).
Proof.
  intros W sp fp dir offs padding sr size n.
  assert (Hzip : combine sp fp = combine (firstn n sp) (firstn n fp)).
  { rewrite <- combine_firstn. subst n.
    rewrite <- length_combine. symmetry. apply firstn_all. }
  split.
  - intros afid_num. now apply apply_afid_model_zip.
  - intros offsets_path. now apply apply_all_afid_models_zip.
Qed.

(** C10. A run that ends normally has written one table, and each
    component of each of its rows is the cast [astype(int)] of the
    component of the Locator's coordinate for that landmark.  The cast
    drops the fraction: for a float of sign [s] and magnitude [m * 2^e]
    it gives the whole part of the magnitude with the sign, whenever the
    whole part fits 64 bits; 2.9 gives 2 and -1.7 gives -1 (rounding to
    nearest would give 3 and -2). *)
Theorem apply_all_afid_models_truncates :
  forall W sp fp offsets_path dir padding size sr archive a0 a1,
    np_load W offsets_path = Ok archive ->
    npz_get archive "arr_0" = Ok a0 ->
    npz_get archive "arr_1" = Ok a1 ->
    let locate := fun n => apply_afid_model W n sp fp dir (a0, a1) padding size sr in
    let run := apply_all_afid_models W sp fp offsets_path dir padding size sr in
    (outcome run = Ok tt ->
       exists table,
         writes (trace run) = [table] /\ List.length table = 32%nat /\
         forall i, (i < 32)%nat ->
           exists c row,
             outcome (locate (Z.of_nat i + 1)) = Ok c /\
             nth_error table i = Some row /\
             ix row = astype_int (vx c) /\
             iy row = astype_int (vy c) /\
             iz row = astype_int (vz c)) /\
    (forall x s m e q,
       Prim2SF x = S754_finite s m e -> 0 <= q <= int64_max ->
       (0 <= e -> q = Zpos m * 2 ^ e) ->
       (e < 0 -> q * 2 ^ (- e) <= Zpos m < (q + 1) * 2 ^ (- e)) ->
       astype_int x = if s then - q else q) /\
    (forall x s, Prim2SF x = S754_zero s -> astype_int x = 0) /\
    astype_int 2.9 = 2 /\ astype_int (-1.7) = -1.
Proof.
  intros W sp fp offsets_path dir padding size sr archive a0 a1 Hload H0 H1
         locate run.
  split; [|split; [exact astype_int_whole_part
                  |split; [exact astype_int_zero|split; vm_compute; reflexivity]]].
  intros Hok.
  destruct (apply_all_afid_models_writes W sp fp dir padding size sr
              offsets_path archive a0 a1 Hload H0 H1)
    as [(coords & Hall & Hw & _) | (n & e & _ & _ & _ & Hout)];
    [|fold run in Hout; congruence].
  fold run in Hw.
  assert (Hlen : List.length coords = 32%nat)
    by (rewrite <- (Forall2_length Hall); reflexivity).
  exists (map astype_int3 coords). split; [exact Hw|].
  split; [now rewrite length_map|].
  intros i Hi.
  destruct (nth_error coords i) as [c|] eqn:Hc;
    [|apply nth_error_None in Hc; lia].
  exists c, (astype_int3 c).
  assert (Hn : nth_error (range 1 33) i = Some (Z.of_nat i + 1)).
  { rewrite nth_error_range. change (Z.to_nat (33 - 1)) with 32%nat.
    destruct (Nat.ltb_spec i 32); [f_equal; lia|lia]. }
  split; [exact (Forall2_nth_error _ _ _ Hall _ _ _ Hn Hc)|].
  split; [now rewrite nth_error_map, Hc|].
  repeat split.
Qed.

Lemma apply_all_afid_models_truncates_witness :
  np_load scaled_world "feature_offsets.npz" = Ok [("arr_0", []); ("arr_1", [])] /\
  npz_get [("arr_0", []); ("arr_1", [])] "arr_0" = Ok [] /\
  npz_get [("arr_0", []); ("arr_1", [])] "arr_1" = Ok [] /\
  outcome (apply_all_afid_models scaled_world ["sub-01.nii.gz"] ["sub-01.fcsv"]
             "feature_offsets.npz" "models" 0 5 5) = Ok tt /\
  outcome (apply_afid_model scaled_world 1 ["sub-01.nii.gz"] ["sub-01.fcsv"]
             "models" ([], []) 0 5 5) = Ok (V3 124.90000000000001 (-101.7) 8.5) /\
  writes (trace (apply_all_afid_models scaled_world ["sub-01.nii.gz"]
                   ["sub-01.fcsv"] "feature_offsets.npz" "models" 0 5 5))
    = [repeat (IV3 124 (-101) 8) 32] /\
  Prim2SF (-101.7) = S754_finite true 7156501282868429 (-46) /\
  astype_int (-101.7) = - 101 /\
  (exists table,
     writes (trace (apply_all_afid_models scaled_world ["sub-01.nii.gz"]
                      ["sub-01.fcsv"] "feature_offsets.npz" "models" 0 5 5))
       = [table] /\
     List.length table = 32%nat /\
     forall i, (i < 32)%nat ->
       exists c row,
         outcome (apply_afid_model scaled_world (Z.of_nat i + 1)
                    ["sub-01.nii.gz"] ["sub-01.fcsv"] "models" ([], []) 0 5 5)
           = Ok c /\
         nth_error table i = Some row /\
         ix row = astype_int (vx c) /\
         iy row = astype_int (vy c) /\
         iz row = astype_int (vz c)).
Proof.
  pose proof (apply_all_afid_models_truncates scaled_world ["sub-01.nii.gz"]
                ["sub-01.fcsv"] "feature_offsets.npz" "models" 0 5 5
                [("arr_0", []); ("arr_1", [])] [] [] eq_refl eq_refl eq_refl)
    as (Hrows & Hcast & _).
  assert (Hok : outcome (apply_all_afid_models scaled_world ["sub-01.nii.gz"]
                           ["sub-01.fcsv"] "feature_offsets.npz" "models" 0 5 5)
                = Ok tt) by (vm_compute; reflexivity).
  assert (Hsf : Prim2SF (-101.7) = S754_finite true 7156501282868429 (-46))
    by (vm_compute; reflexivity).
  do 3 (split; [reflexivity|]). split; [exact Hok|].
  split; [vm_compute; reflexivity|]. split; [vm_compute; reflexivity|].
  split; [exact Hsf|].
  split; [|exact (Hrows Hok)].
  apply (Hcast (-101.7)%float true 7156501282868429%positive (-46) 101 Hsf);
    [vm_compute; split; discriminate|lia|intros _; vm_compute; split; [discriminate|reflexivity]].
Defined.

(* ================================================================== *)
(** ** Further properties of [apply_afid_model] *)

Lemma combine_map_fst_snd {A B} (l : list (A * B)) :
  combine (map fst l) (map snd l) = l.
Proof.
  induction l as [|[a b] l IH]; simpl; [reflexivity|]. now rewrite IH.
Qed.

(** Zero pairs, or two and more: the unpacking cannot succeed. *)
Lemma apply_afid_model_not_single :
  forall W afid_num sp fp dir offs padding sr size,
    List.length (combine sp fp) <> 1%nat ->
    (exists e,
       outcome (apply_afid_model W afid_num sp fp dir offs padding sr size)
       = Raise e) /\
    loads (trace (apply_afid_model W afid_num sp fp dir offs padding sr size)) = [].
Proof.
  intros W afid_num sp fp dir offs padding sr size Hlen.
  destruct (combine sp fp) as [|[s f] [|[s2 f2] rest]] eqn:Hzip.
  - rewrite apply_afid_model_none by assumption. split; [eexists|]; reflexivity.
  - simpl in Hlen. congruence.
  - unfold outcome, trace. run_model. rewrite Hzip. simpl.
    repeat (case_scrutinee; simpl); split; try reflexivity; eexists; reflexivity.
Qed.

(** X1. Unless [zip] yields exactly one (subject, seed) pair, the Locator
    raises, and it does so before asking joblib for any model file. *)
Theorem apply_afid_model_needs_one_pair :
  forall W afid_num sp fp dir offs padding sr size,
    List.length (combine sp fp) <> 1%nat ->
    (exists e,
       outcome (apply_afid_model W afid_num sp fp dir offs padding sr size)
       = Raise e) /\
    loads (trace (apply_afid_model W afid_num sp fp dir offs padding sr size)) = [].
Proof. exact apply_afid_model_not_single. Qed.

Lemma apply_afid_model_needs_one_pair_witness :
  List.length (combine ["sub-01.nii.gz"; "sub-02.nii.gz"; "sub-03.nii.gz"]
                 ["sub-01.fcsv"; "sub-02.fcsv"; "sub-03.fcsv"]) <> 1%nat /\
  (exists e,
     outcome (apply_afid_model stub_world 7
                ["sub-01.nii.gz"; "sub-02.nii.gz"; "sub-03.nii.gz"]
                ["sub-01.fcsv"; "sub-02.fcsv"; "sub-03.fcsv"]
                "models" ([], []) 0 5 1) = Raise e) /\
  loads (trace (apply_afid_model stub_world 7
                  ["sub-01.nii.gz"; "sub-02.nii.gz"; "sub-03.nii.gz"]
                  ["sub-01.fcsv"; "sub-02.fcsv"; "sub-03.fcsv"]
                  "models" ([], []) 0 5 1)) = [].
Proof.
  assert (H : List.length (combine ["sub-01.nii.gz"; "sub-02.nii.gz"; "sub-03.nii.gz"]
                             ["sub-01.fcsv"; "sub-02.fcsv"; "sub-03.fcsv"]) <> 1%nat)
    by (simpl; lia).
  split; [exact H|].
  exact (apply_afid_model_needs_one_pair stub_world 7
           ["sub-01.nii.gz"; "sub-02.nii.gz"; "sub-03.nii.gz"]
           ["sub-01.fcsv"; "sub-02.fcsv"; "sub-03.fcsv"]
           "models" ([], []) 0 5 1 H).
Defined.

(** X2. The Locator never looks beyond the second (subject, seed) pair:
    its calls and its result are those on the first two pairs alone. *)
Theorem apply_afid_model_reads_two_pairs :
  forall W afid_num sp fp dir offs padding sr size,
    apply_afid_model W afid_num sp fp dir offs padding sr size =
    apply_afid_model W afid_num
      (map fst (firstn 2 (combine sp fp))) (map snd (firstn 2 (combine sp fp)))
      dir offs padding sr size.
Proof.
  intros W afid_num sp fp dir offs padding sr size.
  rewrite (apply_afid_model_zip W afid_num sp fp
             (map fst (combine sp fp)) (map snd (combine sp fp)))
    by (now rewrite combine_map_fst_snd).
  destruct (combine sp fp) as [|[s1 f1] [|[s2 f2] rest]]; try reflexivity.
  run_model. repeat (case_scrutinee; simpl); reflexivity.
Qed.

(** X3. A failure of [get_fid] or of [gen_features] on the first pair
    stops the Locator at the failing call.  The exception is raised
    unchanged, unless it is a [StopIteration]: raised in the frame of the
    generator expression, that one comes out as [RuntimeError]. *)
Theorem apply_afid_model_feature_error :
  forall W afid_num sp fp dir offs padding sr size s f rest e,
    combine sp fp = (s, f) :: rest ->
    let raised :=
      if String.eqb (exn_class e) "StopIteration"
      then RuntimeError "generator raised StopIteration"
      else e in
    (get_fid W f (afid_num - 1) = Raise e ->
       apply_afid_model W afid_num sp fp dir offs padding sr size
       = ([EvGetFid f (afid_num - 1)], Raise raised)) /\
    (forall fid,
       get_fid W f (afid_num - 1) = Ok fid ->
       gen_features W s fid offs padding sr size = Raise e ->
       apply_afid_model W afid_num sp fp dir offs padding sr size
       = ([EvGetFid f (afid_num - 1); EvGenFeatures s padding sr size],
          Raise raised)).
Proof.
  intros W afid_num sp fp dir offs padding sr size s f rest e Hzip raised. split.
  - intros Hfid. run_model. rewrite Hzip. simpl. now rewrite Hfid.
  - intros fid Hfid Hgen. run_model. rewrite Hzip. simpl.
    rewrite Hfid. simpl. now rewrite Hgen.
Qed.

Lemma apply_afid_model_feature_error_witness :
  combine ["sub-01.nii.gz"] ["sub-01.fcsv"] = [("sub-01.nii.gz", "sub-01.fcsv")] /\
  get_fid bad_seed_world "sub-01.fcsv" (4 - 1)
    = Raise (CollaboratorError "FileNotFoundError" "seed file") /\
  apply_afid_model bad_seed_world 4 ["sub-01.nii.gz"] ["sub-01.fcsv"]
    "models" ([], []) 0 5 1
    = ([EvGetFid "sub-01.fcsv" (4 - 1)],
       Raise (CollaboratorError "FileNotFoundError" "seed file")) /\
  get_fid bad_image_world "sub-01.fcsv" (4 - 1) = Ok (V3 0 0 0) /\
  gen_features bad_image_world "sub-01.nii.gz" (V3 0 0 0) ([], []) 0 5 1
    = Raise (CollaboratorError "ImageFileError" "image") /\
  apply_afid_model bad_image_world 4 ["sub-01.nii.gz"] ["sub-01.fcsv"]
    "models" ([], []) 0 5 1
    = ([EvGetFid "sub-01.fcsv" (4 - 1); EvGenFeatures "sub-01.nii.gz" 0 5 1],
       Raise (CollaboratorError "ImageFileError" "image")) /\
  get_fid stop_iteration_world "sub-01.fcsv" (4 - 1)
    = Raise (CollaboratorError "StopIteration" "") /\
  apply_afid_model stop_iteration_world 4 ["sub-01.nii.gz"] ["sub-01.fcsv"]
    "models" ([], []) 0 5 1
    = ([EvGetFid "sub-01.fcsv" (4 - 1)],
       Raise (RuntimeError "generator raised StopIteration")).
Proof.
  do 2 (split; [reflexivity|]).
  split.
  { exact (proj1 (apply_afid_model_feature_error bad_seed_world 4
                    ["sub-01.nii.gz"] ["sub-01.fcsv"] "models" ([], []) 0 5 1
                    "sub-01.nii.gz" "sub-01.fcsv" []
                    (CollaboratorError "FileNotFoundError" "seed file") eq_refl)
             eq_refl). }
  do 2 (split; [reflexivity|]).
  split.
  { exact (proj2 (apply_afid_model_feature_error bad_image_world 4
                    ["sub-01.nii.gz"] ["sub-01.fcsv"] "models" ([], []) 0 5 1
                    "sub-01.nii.gz" "sub-01.fcsv" []
                    (CollaboratorError "ImageFileError" "image") eq_refl)
             (V3 0 0 0) eq_refl eq_refl). }
  split; [reflexivity|].
  exact (proj1 (apply_afid_model_feature_error stop_iteration_world 4
                  ["sub-01.nii.gz"] ["sub-01.fcsv"] "models" ([], []) 0 5 1
                  "sub-01.nii.gz" "sub-01.fcsv" []
                  (CollaboratorError "StopIteration" "") eq_refl)
           eq_refl).
Defined.

(** X4. An exception of [predict] is raised unchanged, after the seed,
    the features and the model file were read. *)
Theorem apply_afid_model_predict_error :
  forall W afid_num s f dir offs padding sr size fid T diff samples regr_rf e,
    get_fid W f (afid_num - 1) = Ok fid ->
    gen_features W s fid offs padding sr size = Ok (T, diff, samples) ->
    model_store W (mkPath dir (model_fname afid_num sr)) = Some regr_rf ->
    predict regr_rf diff = Raise e ->
    apply_afid_model W afid_num [s] [f] dir offs padding sr size
    = (locator_events s f dir padding sr size afid_num, Raise e).
Proof.
  intros W afid_num s f dir offs padding sr size fid T diff samples regr_rf e
         Hfid Hgen Hstore Hpred.
  rewrite (apply_afid_model_single _ _ _ _ _ _ _ _ _ _ _ _ _ Hfid Hgen).
  unfold score_and_project, locator_events. now rewrite Hstore, Hpred.
Qed.

Lemma apply_afid_model_predict_error_witness :
  get_fid bad_predict_world "sub-01.fcsv" (1 - 1) = Ok (V3 0 0 0) /\
  apply_afid_model bad_predict_world 1 ["sub-01.nii.gz"] ["sub-01.fcsv"]
    "models" ([], []) 0 5 1
  = (locator_events "sub-01.nii.gz" "sub-01.fcsv" "models" 0 5 1 1,
     Raise (CollaboratorError "ValueError" "n_features")).
Proof.
  split; [reflexivity|].
  exact (apply_afid_model_predict_error bad_predict_world 1 "sub-01.nii.gz"
           "sub-01.fcsv" "models" ([], []) 0 5 1 (V3 0 0 0) identity_affine
           [[0]; [0]; [0]]%float [V3 1 1 1; V3 2 2 2; V3 3 3 3]
           {| predict := fun _ => Raise (CollaboratorError "ValueError" "n_features") |}
           (CollaboratorError "ValueError" "n_features")
           eq_refl eq_refl eq_refl eq_refl).
Defined.

(** X5. With one subject, when [predict] gives one score per candidate
    and not every score is NaN, the Locator returns a coordinate, computed
    from one of that subject's candidates: the one at the first index of a
    greatest score.  Under a diagonal block the coordinate is, entry by
    entry, [scale * candidate + shift]. *)
Theorem apply_afid_model_returns_candidate :
  forall W afid_num s f dir offs padding sr size fid T diff samples regr_rf
         scores j xj,
    get_fid W f (afid_num - 1) = Ok fid ->
    gen_features W s fid offs padding sr size = Ok (T, diff, samples) ->
    model_store W (mkPath dir (model_fname afid_num sr)) = Some regr_rf ->
    predict regr_rf diff = Ok scores ->
    List.length scores = List.length samples ->
    nth_error scores j = Some xj -> is_nan xj = false ->
    exists k v c,
      first_max (map fillna_neginf scores) k /\
      nth_error samples k = Some v /\
      outcome (apply_afid_model W afid_num [s] [f] dir offs padding sr size)
        = Ok c /\
      (let product :=
         mat_dot W (V3 (c0 (r0 T)) (c1 (r0 T)) (c2 (r0 T)),
                    V3 (c0 (r1 T)) (c1 (r1 T)) (c2 (r1 T)),
                    V3 (c0 (r2 T)) (c1 (r2 T)) (c2 (r2 T))) v in
       c = V3 (vx product + c3 (r0 T))%float
              (vy product + c3 (r1 T))%float
              (vz product + c3 (r2 T))%float) /\
      (diagonal_case T v = true ->
       c = V3 (c0 (r0 T) * vx v + c3 (r0 T))%float
              (c1 (r1 T) * vy v + c3 (r1 T))%float
              (c2 (r2 T) * vz v + c3 (r2 T))%float).
Proof.
  intros W afid_num s f dir offs padding sr size fid T diff samples regr_rf
         scores j xj Hfid Hgen Hstore Hpred Hlen Hj Hn.
  destruct (idxmax_total _ _ _ Hj Hn) as [k Hk].
  pose proof (idxmax_first_max _ _ Hk) as Hfirst.
  assert (Hlt : (k < List.length samples)%nat).
  { destruct Hfirst as (xk & Hxk & _).
    rewrite <- Hlen, <- (length_map fillna_neginf).
    apply nth_error_Some. congruence. }
  destruct (nth_error samples k) as [v|] eqn:Hv;
    [|apply nth_error_None in Hv; lia].
  exists k, v, (back_project W T v).
  split; [exact Hfirst|]. split; [exact Hv|]. split.
  - rewrite (apply_afid_model_single _ _ _ _ _ _ _ _ _ _ _ _ _ Hfid Hgen).
    unfold outcome, score_and_project. simpl.
    rewrite Hstore, Hpred, Hk. simpl. now rewrite Hv.
  - split; [reflexivity|]. exact (back_project_diagonal W T v).
Qed.

Lemma apply_afid_model_returns_candidate_witness :
  List.length [0.1; 0.9; 0.4]%float = List.length [V3 1 1 1; V3 2 2 2; V3 3 3 3] /\
  is_nan 0.1 = false /\
  outcome (apply_afid_model scaled_world 1 ["sub-01.nii.gz"] ["sub-01.fcsv"]
             "models" ([], []) 0 5 1)
    = Ok (V3 124.90000000000001 (-101.7) 8.5) /\
  exists k v c,
    first_max (map fillna_neginf [0.1; 0.9; 0.4]%float) k /\
    nth_error [V3 1 1 1; V3 2 2 2; V3 3 3 3] k = Some v /\
    outcome (apply_afid_model scaled_world 1 ["sub-01.nii.gz"] ["sub-01.fcsv"]
               "models" ([], []) 0 5 1) = Ok c /\
    (let product :=
       mat_dot scaled_world
         (V3 (c0 (r0 scaling_affine)) (c1 (r0 scaling_affine)) (c2 (r0 scaling_affine)),
          V3 (c0 (r1 scaling_affine)) (c1 (r1 scaling_affine)) (c2 (r1 scaling_affine)),
          V3 (c0 (r2 scaling_affine)) (c1 (r2 scaling_affine)) (c2 (r2 scaling_affine)))
         v in
     c = V3 (vx product + c3 (r0 scaling_affine))%float
            (vy product + c3 (r1 scaling_affine))%float
            (vz product + c3 (r2 scaling_affine))%float) /\
    (diagonal_case scaling_affine v = true ->
     c = V3 (c0 (r0 scaling_affine) * vx v + c3 (r0 scaling_affine))%float
            (c1 (r1 scaling_affine) * vy v + c3 (r1 scaling_affine))%float
            (c2 (r2 scaling_affine) * vz v + c3 (r2 scaling_affine))%float).
Proof.
  do 2 (split; [reflexivity|]). split; [vm_compute; reflexivity|].
  exact (apply_afid_model_returns_candidate scaled_world 1 "sub-01.nii.gz"
           "sub-01.fcsv" "models" ([], []) 0 5 1 (V3 0 0 0) scaling_affine
           [[0]; [0]; [0]]%float [V3 1 1 1; V3 2 2 2; V3 3 3 3] stub_model
           [0.1; 0.9; 0.4]%float 0%nat 0.1%float
           eq_refl eq_refl eq_refl eq_refl eq_refl eq_refl eq_refl).
Defined.

(** X6. When the one greatest score sits at an index that the candidate
    array does not have, the Locator raises an [IndexError]. *)
Theorem apply_afid_model_index_error :
  forall W afid_num s f dir offs padding sr size fid T diff samples regr_rf
         scores k,
    get_fid W f (afid_num - 1) = Ok fid ->
    gen_features W s fid offs padding sr size = Ok (T, diff, samples) ->
    model_store W (mkPath dir (model_fname afid_num sr)) = Some regr_rf ->
    predict regr_rf diff = Ok scores ->
    unique_max scores k ->
    (List.length samples <= k)%nat ->
    fails_with "IndexError"
      (apply_afid_model W afid_num [s] [f] dir offs padding sr size).
Proof.
  intros W afid_num s f dir offs padding sr size fid T diff samples regr_rf
         scores k Hfid Hgen Hstore Hpred Hmax Hlen.
  rewrite (apply_afid_model_single _ _ _ _ _ _ _ _ _ _ _ _ _ Hfid Hgen).
  unfold fails_with, outcome, score_and_project. simpl.
  rewrite Hstore, Hpred, (unique_max_idxmax _ _ Hmax). simpl.
  apply nth_error_None in Hlen. rewrite Hlen.
  eexists. split; reflexivity.
Qed.

Lemma apply_afid_model_index_error_witness :
  unique_max [0.1; 0.9; 0.4; 2]%float 3 /\
  (List.length [V3 1 1 1; V3 2 2 2; V3 3 3 3] <= 3)%nat /\
  outcome (apply_afid_model long_predict_world 1 ["sub-01.nii.gz"]
             ["sub-01.fcsv"] "models" ([], []) 0 5 1)
    = Raise (IndexError "index 3 is out of bounds for axis 0 with size 3") /\
  fails_with "IndexError"
    (apply_afid_model long_predict_world 1 ["sub-01.nii.gz"]
       ["sub-01.fcsv"] "models" ([], []) 0 5 1).
Proof.
  assert (Hmax : unique_max [0.1; 0.9; 0.4; 2]%float 3).
  { exists 2%float. repeat split.
    intros [|[|[|[|j]]]] xj Hne Hj; simpl in Hj.
    - injection Hj as <-. reflexivity.
    - injection Hj as <-. reflexivity.
    - injection Hj as <-. reflexivity.
    - congruence.
    - destruct j; discriminate. }
  assert (Hlen : (List.length [V3 1 1 1; V3 2 2 2; V3 3 3 3] <= 3)%nat)
    by (simpl; lia).
  split; [exact Hmax|]. split; [exact Hlen|].
  split; [vm_compute; reflexivity|].
  exact (apply_afid_model_index_error long_predict_world 1 "sub-01.nii.gz"
           "sub-01.fcsv" "models" ([], []) 0 5 1 (V3 0 0 0) identity_affine
           [[0]; [0]; [0]]%float [V3 1 1 1; V3 2 2 2; V3 3 3 3]
           {| predict := fun _ => Ok [0.1; 0.9; 0.4; 2]%float |}
           [0.1; 0.9; 0.4; 2]%float 3%nat
           eq_refl eq_refl eq_refl eq_refl Hmax Hlen).
Defined.

(* ================================================================== *)
(** ** The model file name *)

Lemma string_forallb_app (P : ascii -> bool) (s t : string) :
  string_forallb P (s ++ t)%string = (string_forallb P s && string_forallb P t)%bool.
Proof.
  induction s as [|c s IH]; simpl; [reflexivity|].
  now rewrite IH, andb_assoc.
Qed.

Lemma string_forallb_impl (P Q : ascii -> bool) (s : string) :
  (forall c, P c = true -> Q c = true) ->
  string_forallb P s = true -> string_forallb Q s = true.
Proof.
  intros HPQ. induction s as [|c s IH]; simpl; [reflexivity|].
  rewrite !andb_true_iff. intros [Hc Hs]. auto.
Qed.

Lemma string_forallb_zeros (P : ascii -> bool) (n : nat) :
  P "0"%char = true -> string_forallb P (zeros n) = true.
Proof. intros H0. induction n; simpl; [reflexivity|]. now rewrite H0, IHn. Qed.

Lemma string_forallb_zfill (P : ascii -> bool) (width : nat) (s : string) :
  P "0"%char = true ->
  string_forallb P s = true -> string_forallb P (zfill width s) = true.
Proof.
  intros H0 Hs. unfold zfill.
  destruct (width <=? String.length s)%nat; [exact Hs|].
  destruct s as [|c s]; [now apply string_forallb_zeros|].
  simpl in Hs. apply andb_true_iff in Hs as [Hc Hs].
  destruct (Ascii.eqb c "+" || Ascii.eqb c "-")%bool; simpl.
  - rewrite Hc, string_forallb_app, Hs, string_forallb_zeros; auto.
  - rewrite string_forallb_app, string_forallb_zeros by auto.
    simpl. now rewrite Hc, Hs.
Qed.

Lemma string_app_inv_head (p a b : string) :
  (p ++ a)%string = (p ++ b)%string -> a = b.
Proof. induction p; simpl; intros H; [exact H|]. injection H. auto. Qed.

(** Two strings cut at a separator that neither left part contains. *)
Lemma string_app_sep_inj (c : ascii) (s1 s2 t1 t2 : string) :
  string_forallb (fun x => negb (Ascii.eqb x c)) s1 = true ->
  string_forallb (fun x => negb (Ascii.eqb x c)) s2 = true ->
  (s1 ++ String c t1)%string = (s2 ++ String c t2)%string ->
  s1 = s2 /\ t1 = t2.
Proof.
  revert s2. induction s1 as [|a s1 IH]; intros [|b s2]; simpl; intros H1 H2 H.
  - injection H. auto.
  - injection H as <- _. rewrite Ascii.eqb_refl in H2. discriminate.
  - injection H as -> _. rewrite Ascii.eqb_refl in H1. discriminate.
  - injection H as -> H. apply andb_true_iff in H1 as [_ H1].
    apply andb_true_iff in H2 as [_ H2].
    destruct (IH s2 H1 H2 H) as [-> ->]. auto.
Qed.

Lemma uint_chars (d : Decimal.uint) :
  string_forallb is_numeral_char (NilEmpty.string_of_uint d) = true.
Proof. induction d; simpl; auto. Qed.

(** [str] writes digits and the minus sign only. *)
Lemma str_chars (n : Z) : string_forallb is_numeral_char (str n) = true.
Proof.
  unfold str, NilZero.string_of_int, NilZero.string_of_uint.
  destruct (Z.to_int n) as [d|d]; destruct d; simpl; auto using uint_chars.
Qed.

Lemma numeral_char_cases (c : ascii) :
  is_numeral_char c = true ->
  In c ["0"; "1"; "2"; "3"; "4"; "5"; "6"; "7"; "8"; "9"; "-"]%char.
Proof.
  unfold is_numeral_char. rewrite existsb_exists.
  intros (x & Hx & Hc). apply Ascii.eqb_eq in Hc. now subst.
Qed.

Lemma numeral_char_not (c x : ascii) :
  is_numeral_char c = false ->
  is_numeral_char x = true -> negb (Ascii.eqb x c) = true.
Proof.
  intros Hc Hx. destruct (Ascii.eqb_spec x c) as [->|]; [congruence|reflexivity].
Qed.

(** The numeral [str] writes reads back as the number. *)
Lemma int_of_str_str (n : Z) : int_of_str (str n) = Some n.
Proof.
  unfold int_of_str, str. rewrite NilZero.isi.
  - simpl. now rewrite DecimalZ.of_to.
  - destruct n; simpl; try discriminate.
    intros H. injection H as H. revert H. apply DecimalPos.Unsigned.to_uint_nonnil.
  - destruct n; simpl; try discriminate.
    intros H. injection H as H. revert H. apply DecimalPos.Unsigned.to_uint_nonnil.
Qed.

(** So does the numeral padded to two characters. *)
Lemma int_of_str_zfill (n : Z) : int_of_str (zfill 2 (str n)) = Some n.
Proof.
  pose proof (int_of_str_str n) as Hn. pose proof (str_chars n) as Hc.
  destruct (str n) as [|c [|c2 rest]]; [discriminate Hn| |exact Hn].
  simpl in Hc. rewrite andb_true_r in Hc.
  apply numeral_char_cases in Hc. simpl in Hc.
  repeat (destruct Hc as [<-|Hc];
          [vm_compute in Hn; try discriminate Hn; rewrite <- Hn; reflexivity|]).
  destruct Hc.
Qed.

(** X7. Two model file names are equal only for the same landmark number
    and the same sampling rate: no two models share a file. *)
Theorem model_fname_injective :
  forall n r m r',
    model_fname n r = model_fname m r' -> n = m /\ r = r'.
Proof.
  intros n r m r' H. unfold model_fname in H.
  apply string_app_inv_head in H.
  change ("_desc-rf_sampleRate-iso" ++ str r ++ "vox_model.joblib")%string
    with (String "_" ("desc-rf_sampleRate-iso" ++ str r ++ "vox_model.joblib"))%string in H.
  change ("_desc-rf_sampleRate-iso" ++ str r' ++ "vox_model.joblib")%string
    with (String "_" ("desc-rf_sampleRate-iso" ++ str r' ++ "vox_model.joblib"))%string in H.
  assert (Hsep : forall k c, is_numeral_char c = false ->
            string_forallb (fun x => negb (Ascii.eqb x c)) (zfill 2 (str k)) = true).
  { intros k c Hc.
    apply (string_forallb_impl is_numeral_char);
      [exact (fun x => numeral_char_not c x Hc)|].
    apply string_forallb_zfill; [reflexivity|apply str_chars]. }
  apply string_app_sep_inj in H; [|exact (Hsep n "_"%char eq_refl)|exact (Hsep m "_"%char eq_refl)].
  destruct H as [Hn Hr]. split.
  - pose proof (int_of_str_zfill n) as E. rewrite Hn, int_of_str_zfill in E.
    congruence.
  - apply string_app_inv_head in Hr.
    change "vox_model.joblib" with (String "v" "ox_model.joblib") in Hr.
    apply string_app_sep_inj in Hr.
    + destruct Hr as [Hr _]. pose proof (int_of_str_str r) as E.
      rewrite Hr, int_of_str_str in E. congruence.
    + apply (string_forallb_impl is_numeral_char);
        [exact (fun x => numeral_char_not "v" x eq_refl)|apply str_chars].
    + apply (string_forallb_impl is_numeral_char);
        [exact (fun x => numeral_char_not "v" x eq_refl)|apply str_chars].
Qed.

Lemma model_fname_injective_witness :
  model_fname 7 5 = model_fname (3 + 4) (10 - 5) /\ 7 = 3 + 4 /\ 5 = 10 - 5.
Proof.
  assert (H : model_fname 7 5 = model_fname (3 + 4) (10 - 5)) by reflexivity.
  split; [exact H|].
  exact (model_fname_injective 7 5 (3 + 4) (10 - 5) H).
Defined.

(* ================================================================== *)
(** ** Further properties of [apply_all_afid_models] *)

Lemma map_seq_from {A} (f : nat -> A) (len : nat) :
  forall start, map f (seq start len) = map (fun k => f (start + k)%nat) (seq 0 len).
Proof.
  induction len as [|len IH]; intros start; simpl; [reflexivity|].
  rewrite Nat.add_0_r. f_equal.
  rewrite IH, <- seq_shift, map_map.
  apply map_ext. intros k. f_equal. lia.
Qed.

Lemma range_split (lo hi n : Z) :
  lo <= n < hi -> range lo hi = range lo n ++ n :: range (n + 1) hi.
Proof.
  intros H. unfold range.
  replace (Z.to_nat (hi - lo))
    with (Z.to_nat (n - lo) + S (Z.to_nat (hi - (n + 1))))%nat by lia.
  rewrite seq_app, map_app. f_equal. simpl. f_equal; [lia|].
  rewrite map_seq_from. apply map_ext. intros k. lia.
Qed.

Lemma npz_get_missing (archive : npz) (key : string) :
  (forall a, ~ In (key, a) archive) -> npz_get archive key = Raise (KeyError key).
Proof.
  induction archive as [|[k a] rest IH]; simpl; intros H; [reflexivity|].
  destruct (String.eqb_spec k key) as [->|Hne].
  - exfalso. apply (H a). now left.
  - apply IH. intros a' Hin. apply (H a'). now right.
Qed.

(** The calls of one Locator run are those of its landmark. *)
Lemma apply_afid_model_calls W afid_num sp fp dir offs padding sr size :
  Forall (fun ev =>
            match ev with
            | EvGetFid _ index => index = afid_num - 1
            | EvGenFeatures _ p a b => p = padding /\ a = sr /\ b = size
            | EvLoad p => p = mkPath dir (model_fname afid_num sr)
            | EvNpLoad _ | EvWrite _ => False
            end)
         (trace (apply_afid_model W afid_num sp fp dir offs padding sr size)).
Proof.
  unfold trace. run_model.
  destruct (combine sp fp) as [|[s f] [|[s2 f2] rest]]; simpl;
    repeat (case_scrutinee; simpl); repeat constructor.
Qed.

Section AggregatorRuns.
Variable W : World.
Variables subject_paths fcsv_paths : list string.
Variable model_dir_path : string.
Variables padding size sampling_rate : Z.

Local Abbreviation locate offs afid_num :=
  (apply_afid_model W afid_num subject_paths fcsv_paths model_dir_path
     offs padding size sampling_rate).

Local Abbreviation loop archive afid_nums acc :=
  (afid_loop W subject_paths fcsv_paths model_dir_path archive
     padding size sampling_rate afid_nums acc).

Local Abbreviation run feature_offsets_path :=
  (apply_all_afid_models W subject_paths fcsv_paths feature_offsets_path
     model_dir_path padding size sampling_rate).

(** The loop stops at the first landmark whose Locator call raises: its
    calls are those of the landmarks up to that one. *)
Lemma afid_loop_first_failure (archive : npz) (a0 a1 : ndarray)
      (n : Z) (e : pyexn) (post : list Z) :
  npz_get archive "arr_0" = Ok a0 ->
  npz_get archive "arr_1" = Ok a1 ->
  outcome (locate (a0, a1) n) = Raise e ->
  forall pre acc,
    Forall (fun m => exists c, outcome (locate (a0, a1) m) = Ok c) pre ->
    loop archive (pre ++ n :: post) acc
    = (flat_map (fun m => trace (locate (a0, a1) m)) (pre ++ [n]), Raise e).
Proof.
  intros H0 H1 Hn. induction pre as [|m pre IH]; intros acc Hpre; simpl.
  - rewrite H0, H1. simpl. unfold outcome, trace in *.
    destruct (locate (a0, a1) n) as [t r]. simpl in *. subst r.
    simpl. now rewrite app_nil_r.
  - rewrite H0, H1. simpl. inversion Hpre as [|? ? [c Hc] Hpre']; subst.
    unfold outcome, trace in *.
    destruct (locate (a0, a1) m) as [t r]. simpl in *. subst r. simpl.
    now rewrite (IH (acc ++ [c]) Hpre').
Qed.

(** While the Locator calls succeed, the loop makes their calls one
    landmark after the other and stacks the coordinates. *)
Lemma afid_loop_success (archive : npz) (a0 a1 : ndarray) :
  npz_get archive "arr_0" = Ok a0 ->
  npz_get archive "arr_1" = Ok a1 ->
  forall afid_nums coords acc,
    Forall2 (fun m c => outcome (locate (a0, a1) m) = Ok c) afid_nums coords ->
    loop archive afid_nums acc
    = (flat_map (fun m => trace (locate (a0, a1) m)) afid_nums, Ok (acc ++ coords)).
Proof.
  intros H0 H1. induction afid_nums as [|m rest IH]; intros coords acc Hall;
    inversion Hall as [|? c ? coords' Hc Hrest]; subst; simpl.
  - now rewrite app_nil_r.
  - rewrite H0, H1. simpl. unfold outcome, trace in *.
    destruct (locate (a0, a1) m) as [t r]. simpl in *. subst r. simpl.
    rewrite (IH coords' (acc ++ [c]) Hrest), <- app_assoc. reflexivity.
Qed.

(** Whatever happens, the calls of the loop are Locator calls for its
    landmarks. *)
Lemma afid_loop_calls (archive : npz) (afid_nums : list Z) :
  Forall (fun n => 1 <= n <= 32) afid_nums ->
  forall acc,
    Forall (landmark_call model_dir_path padding size sampling_rate)
           (trace (loop archive afid_nums acc)).
Proof.
  induction 1 as [|n rest Hn _ IH]; intros acc; simpl; [constructor|].
  destruct (npz_get archive "arr_0") as [a0|e0]; simpl; [|constructor].
  destruct (npz_get archive "arr_1") as [a1|e1]; simpl; [|constructor].
  pose proof (apply_afid_model_calls W n subject_paths fcsv_paths model_dir_path
                (a0, a1) padding size sampling_rate) as Hcalls.
  assert (Hcalls' : Forall (landmark_call model_dir_path padding size sampling_rate)
                      (trace (locate (a0, a1) n))).
  { eapply Forall_impl; [|exact Hcalls].
    intros [fcsv i|subj p a b|p|path|table]; simpl; try tauto.
    - lia.
    - intros ->. eauto. }
  unfold trace in *.
  destruct (locate (a0, a1) n) as [t [c|e]]; simpl in *; [|exact Hcalls'].
  specialize (IH (acc ++ [c])).
  destruct (loop archive rest (acc ++ [c])) as [t' r']. simpl in *.
  apply Forall_app. auto.
Qed.
End AggregatorRuns.

Lemma range_snoc (lo n : Z) : lo <= n -> range lo (n + 1) = range lo n ++ [n].
Proof.
  intros H. rewrite (range_split lo (n + 1) n) by lia.
  f_equal. f_equal. unfold range.
  replace (Z.to_nat (n + 1 - (n + 1))) with 0%nat by lia. reflexivity.
Qed.

Lemma flat_map_ext_in {A B} (f g : A -> list B) (l : list A) :
  (forall a, In a l -> f a = g a) -> flat_map f l = flat_map g l.
Proof.
  intros H. rewrite !flat_map_concat_map. f_equal. now apply map_ext_in.
Qed.

(** The stacked array only grows below the rows it starts with. *)
Lemma afid_loop_acc W sp fp dir archive padding size sr :
  forall afid_nums acc,
    afid_loop W sp fp dir archive padding size sr afid_nums acc
    = (trace (afid_loop W sp fp dir archive padding size sr afid_nums []),
       match outcome (afid_loop W sp fp dir archive padding size sr afid_nums []) with
       | Ok coords => Ok (acc ++ coords)
       | Raise e => Raise e
       end).
Proof.
  induction afid_nums as [|n rest IH]; intros acc; simpl.
  - now rewrite app_nil_r.
  - destruct (npz_get archive "arr_0") as [a0|e0]; simpl; [|reflexivity].
    destruct (npz_get archive "arr_1") as [a1|e1]; simpl; [|reflexivity].
    destruct (apply_afid_model W n sp fp dir (a0, a1) padding size sr)
      as [t [c|e]]; simpl; [|reflexivity].
    rewrite (IH (acc ++ [c])), (IH [c]). unfold trace, outcome. simpl.
    destruct (snd (afid_loop W sp fp dir archive padding size sr rest []));
      simpl; [rewrite <- app_assoc|]; reflexivity.
Qed.

Lemma afid_loop_with_np_empty3 W v sp fp dir archive padding size sr :
  forall afid_nums acc,
    afid_loop (with_np_empty3 W v) sp fp dir archive padding size sr afid_nums acc
    = afid_loop W sp fp dir archive padding size sr afid_nums acc.
Proof.
  induction afid_nums as [|n rest IH]; intros acc; simpl; [reflexivity|].
  destruct (npz_get archive "arr_0") as [a0|e0]; simpl; [|reflexivity].
  destruct (npz_get archive "arr_1") as [a1|e1]; simpl; [|reflexivity].
  change (apply_afid_model (with_np_empty3 W v) n sp fp dir (a0, a1) padding size sr)
    with (apply_afid_model W n sp fp dir (a0, a1) padding size sr).
  destruct (apply_afid_model W n sp fp dir (a0, a1) padding size sr)
    as [t [c|e]]; simpl; [rewrite IH|]; reflexivity.
Qed.

(** The run when [numpy.load] raises. *)
Lemma apply_all_afid_models_np_load_raise :
  forall W sp fp offsets_path dir padding size sr e,
    np_load W offsets_path = Raise e ->
    apply_all_afid_models W sp fp offsets_path dir padding size sr
    = ([EvNpLoad offsets_path], Raise e).
Proof.
  intros W sp fp offsets_path dir padding size sr e Hload.
  unfold apply_all_afid_models, call_np_load, bind, emit, lift. simpl.
  now rewrite Hload.
Qed.

(** X8. When the offset archive cannot be read, the run raises the
    exception of [numpy.load] and calls nothing else. *)
Theorem apply_all_afid_models_archive_error :
  forall W sp fp offsets_path dir padding size sr e,
    np_load W offsets_path = Raise e ->
    apply_all_afid_models W sp fp offsets_path dir padding size sr
    = ([EvNpLoad offsets_path], Raise e).
Proof. exact apply_all_afid_models_np_load_raise. Qed.

Lemma apply_all_afid_models_archive_error_witness :
  np_load no_archive_world "feature_offsets.npz"
    = Raise (CollaboratorError "FileNotFoundError" "archive") /\
  apply_all_afid_models no_archive_world ["sub-01.nii.gz"] ["sub-01.fcsv"]
    "feature_offsets.npz" "models" 0 1 5
  = ([EvNpLoad "feature_offsets.npz"],
     Raise (CollaboratorError "FileNotFoundError" "archive")).
Proof.
  split; [reflexivity|].
  exact (apply_all_afid_models_archive_error no_archive_world ["sub-01.nii.gz"]
           ["sub-01.fcsv"] "feature_offsets.npz" "models" 0 1 5
           (CollaboratorError "FileNotFoundError" "archive") eq_refl).
Defined.

(** X9. When the archive lacks [arr_0], or holds [arr_0] but lacks
    [arr_1], the run raises [KeyError] on that name at the first landmark,
    before any seed, image or model file is read. *)
Theorem apply_all_afid_models_missing_array :
  forall W sp fp offsets_path dir padding size sr archive key,
    np_load W offsets_path = Ok archive ->
    key = "arr_0" \/ (key = "arr_1" /\ exists a0, In ("arr_0", a0) archive) ->
    (forall a, ~ In (key, a) archive) ->
    apply_all_afid_models W sp fp offsets_path dir padding size sr
    = ([EvNpLoad offsets_path], Raise (KeyError key)).
Proof.
  intros W sp fp offsets_path dir padding size sr archive key Hload Hkey Hmiss.
  rewrite (apply_all_afid_models_run _ _ _ _ _ _ _ _ _ Hload).
  change (range 1 33) with (1 :: range 2 33). simpl.
  destruct Hkey as [->|[-> [a0 Ha0]]].
  - now rewrite (npz_get_missing _ _ Hmiss).
  - destruct (npz_get archive "arr_0") as [a|e] eqn:H0.
    + simpl. now rewrite (npz_get_missing _ _ Hmiss).
    + exfalso. clear -Ha0 H0. induction archive as [|[k a] rest IH];
        simpl in *; [contradiction|].
      destruct (String.eqb_spec k "arr_0"); [discriminate|].
      destruct Ha0 as [Ha0|Ha0]; [congruence|auto].
Qed.

Lemma apply_all_afid_models_missing_array_witness :
  np_load one_array_world "feature_offsets.npz" = Ok [("arr_0", [])] /\
  (forall a, ~ In ("arr_1", a) [("arr_0", @nil (list Z))]) /\
  apply_all_afid_models one_array_world ["sub-01.nii.gz"] ["sub-01.fcsv"]
    "feature_offsets.npz" "models" 0 1 5
  = ([EvNpLoad "feature_offsets.npz"], Raise (KeyError "arr_1")).
Proof.
  assert (Hmiss : forall a, ~ In ("arr_1", a) [("arr_0", @nil (list Z))])
    by (intros a [H|[]]; discriminate H).
  split; [reflexivity|]. split; [exact Hmiss|].
  exact (apply_all_afid_models_missing_array one_array_world ["sub-01.nii.gz"]
           ["sub-01.fcsv"] "feature_offsets.npz" "models" 0 1 5
           [("arr_0", [])] "arr_1" eq_refl
           (or_intror (conj eq_refl (ex_intro _ [] (or_introl eq_refl)))) Hmiss).
Defined.

(** The run when landmark [n] is the first whose Locator call raises. *)
Lemma apply_all_afid_models_stops_at :
  forall W sp fp offsets_path dir padding size sr archive a0 a1 n e,
    np_load W offsets_path = Ok archive ->
    npz_get archive "arr_0" = Ok a0 ->
    npz_get archive "arr_1" = Ok a1 ->
    let locate := fun m => apply_afid_model W m sp fp dir (a0, a1) padding size sr in
    1 <= n <= 32 ->
    (forall m, 1 <= m < n -> exists c, outcome (locate m) = Ok c) ->
    outcome (locate n) = Raise e ->
    apply_all_afid_models W sp fp offsets_path dir padding size sr
    = (EvNpLoad offsets_path
         :: flat_map (fun m => trace (locate m)) (range 1 (n + 1)),
       Raise e).
Proof.
  intros W sp fp offsets_path dir padding size sr archive a0 a1 n e
         Hload H0 H1 locate Hn Hpre He.
  rewrite (apply_all_afid_models_run _ _ _ _ _ _ _ _ _ Hload).
  rewrite (range_split 1 33 n) by lia.
  rewrite (afid_loop_first_failure W sp fp dir padding size sr archive a0 a1
             n e (range (n + 1) 33) H0 H1 He).
  - rewrite range_snoc by lia. reflexivity.
  - apply Forall_forall. intros m Hm. apply In_range in Hm. now apply Hpre.
Qed.

(** X10. The run stops at the first landmark whose Locator call raises:
    it raises that exception, having made the calls of the landmarks up to
    that one and no other; later landmarks are never tried and the writer
    is not called. *)
Theorem apply_all_afid_models_first_failure :
  forall W sp fp offsets_path dir padding size sr archive a0 a1 n e,
    np_load W offsets_path = Ok archive ->
    npz_get archive "arr_0" = Ok a0 ->
    npz_get archive "arr_1" = Ok a1 ->
    let locate := fun m => apply_afid_model W m sp fp dir (a0, a1) padding size sr in
    1 <= n <= 32 ->
    (forall m, 1 <= m < n -> exists c, outcome (locate m) = Ok c) ->
    outcome (locate n) = Raise e ->
    apply_all_afid_models W sp fp offsets_path dir padding size sr
    = (EvNpLoad offsets_path
         :: flat_map (fun m => trace (locate m)) (range 1 (n + 1)),
       Raise e).
Proof. exact apply_all_afid_models_stops_at. Qed.

Lemma apply_all_afid_models_first_failure_witness :
  1 <= 3 <= 32 /\
  outcome (apply_afid_model missing_third_world 3 ["sub-01.nii.gz"]
             ["sub-01.fcsv"] "models" ([], []) 0 1 5)
    = Raise (FileNotFoundError (mkPath "models" (model_fname 3 1))) /\
  apply_all_afid_models missing_third_world ["sub-01.nii.gz"] ["sub-01.fcsv"]
    "feature_offsets.npz" "models" 0 1 5
  = (EvNpLoad "feature_offsets.npz"
       :: flat_map (fun m => trace (apply_afid_model missing_third_world m
                                      ["sub-01.nii.gz"] ["sub-01.fcsv"]
                                      "models" ([], []) 0 1 5))
            (range 1 (3 + 1)),
     Raise (FileNotFoundError (mkPath "models" (model_fname 3 1)))).
Proof.
  split; [lia|]. split; [vm_compute; reflexivity|].
  apply (apply_all_afid_models_first_failure missing_third_world
           ["sub-01.nii.gz"] ["sub-01.fcsv"] "feature_offsets.npz" "models"
           0 1 5 [("arr_0", []); ("arr_1", [])] [] [] 3
           (FileNotFoundError (mkPath "models" (model_fname 3 1))));
    try reflexivity; try lia.
  intros m Hm. assert (Hcases : m = 1 \/ m = 2) by lia.
  destruct Hcases as [-> | ->]; eexists; vm_compute; reflexivity.
Defined.

(** X11. A run that ends normally had exactly one (subject, seed) pair,
    and made these calls in this order: [numpy.load] once, then for each
    landmark 1..32 in ascending order the seed of index [landmark - 1], the
    features and the model file, then the writer once. *)
Theorem apply_all_afid_models_success_trace :
  forall W sp fp offsets_path dir padding size sr archive a0 a1,
    np_load W offsets_path = Ok archive ->
    npz_get archive "arr_0" = Ok a0 ->
    npz_get archive "arr_1" = Ok a1 ->
    outcome (apply_all_afid_models W sp fp offsets_path dir padding size sr)
      = Ok tt ->
    exists s f table,
      combine sp fp = [(s, f)] /\
      trace (apply_all_afid_models W sp fp offsets_path dir padding size sr)
      = EvNpLoad offsets_path
          :: flat_map (locator_events s f dir padding size sr) (range 1 33)
          ++ [EvWrite table].
Proof.
  intros W sp fp offsets_path dir padding size sr archive a0 a1 Hload H0 H1 Hok.
  destruct (apply_all_afid_models_writes W sp fp dir padding size sr
              offsets_path archive a0 a1 Hload H0 H1)
    as [(coords & Hall & _ & _) | (n & e & _ & _ & _ & Hout)]; [|congruence].
  assert (Hpair : exists s f, combine sp fp = [(s, f)]).
  { assert (H1in : nth_error (range 1 33) 0 = Some 1) by reflexivity.
    destruct coords as [|c coords]; [inversion Hall|].
    pose proof (Forall2_nth_error _ _ _ Hall 0%nat 1 c H1in eq_refl) as Hc.
    simpl in Hc.
    destruct (apply_afid_model_Ok_inv _ _ _ _ _ _ _ _ _ _ Hc)
      as (s & f & _ & _ & _ & _ & Hzip & _). eauto. }
  destruct Hpair as (s & f & Hzip).
  exists s, f, (map astype_int3 coords). split; [exact Hzip|].
  rewrite (apply_all_afid_models_run _ _ _ _ _ _ _ _ _ Hload).
  remember (range 1 33) as afid_nums eqn:Hnums. clear Hnums.
  rewrite (afid_loop_success W sp fp dir padding size sr archive a0 a1 H0 H1
             afid_nums coords [np_empty3 W] Hall).
  unfold trace. simpl. f_equal. f_equal.
  apply flat_map_ext_in. intros m Hm.
  destruct (In_nth_error _ _ Hm) as [i Hi].
  assert (Hc : exists c, nth_error coords i = Some c).
  { destruct (nth_error coords i) eqn:E; [eauto|].
    apply nth_error_None in E. rewrite <- (Forall2_length Hall) in E.
    apply nth_error_None in E. congruence. }
  destruct Hc as [c Hc].
  pose proof (Forall2_nth_error _ _ _ Hall _ _ _ Hi Hc) as Hm_ok. simpl in Hm_ok.
  destruct (apply_afid_model_Ok_inv _ _ _ _ _ _ _ _ _ _ Hm_ok)
    as (s' & f' & fid & T & diff & samples & Hzip' & Hfid & Hgen & _).
  rewrite Hzip in Hzip'. injection Hzip' as <- <-.
  rewrite (apply_afid_model_zip W m sp fp [s] [f]) by (now rewrite Hzip).
  now rewrite (apply_afid_model_single _ _ _ _ _ _ _ _ _ _ _ _ _ Hfid Hgen).
Qed.

Lemma apply_all_afid_models_success_trace_witness :
  outcome (apply_all_afid_models stub_world ["sub-01.nii.gz"] ["sub-01.fcsv"]
             "feature_offsets.npz" "models" 0 1 5) = Ok tt /\
  exists s f table,
    combine ["sub-01.nii.gz"] ["sub-01.fcsv"] = [(s, f)] /\
    trace (apply_all_afid_models stub_world ["sub-01.nii.gz"] ["sub-01.fcsv"]
             "feature_offsets.npz" "models" 0 1 5)
    = EvNpLoad "feature_offsets.npz"
        :: flat_map (locator_events s f "models" 0 1 5) (range 1 33)
        ++ [EvWrite table].
Proof.
  assert (Hok : outcome (apply_all_afid_models stub_world ["sub-01.nii.gz"]
                           ["sub-01.fcsv"] "feature_offsets.npz" "models" 0 1 5)
                = Ok tt) by (vm_compute; reflexivity).
  split; [exact Hok|].
  exact (apply_all_afid_models_success_trace stub_world ["sub-01.nii.gz"]
           ["sub-01.fcsv"] "feature_offsets.npz" "models" 0 1 5
           [("arr_0", []); ("arr_1", [])] [] [] eq_refl eq_refl eq_refl Hok).
Defined.

(** X12. Unless [zip] yields exactly one (subject, seed) pair, the run
    raises at the first landmark: no model file is asked for and the writer
    is not called. *)
Theorem apply_all_afid_models_needs_one_pair :
  forall W sp fp offsets_path dir padding size sr archive a0 a1,
    np_load W offsets_path = Ok archive ->
    npz_get archive "arr_0" = Ok a0 ->
    npz_get archive "arr_1" = Ok a1 ->
    List.length (combine sp fp) <> 1%nat ->
    let run := apply_all_afid_models W sp fp offsets_path dir padding size sr in
    (exists e, outcome run = Raise e) /\
    trace run
      = EvNpLoad offsets_path
          :: trace (apply_afid_model W 1 sp fp dir (a0, a1) padding size sr) /\
    loads (trace run) = [] /\ writes (trace run) = [].
Proof.
  intros W sp fp offsets_path dir padding size sr archive a0 a1 Hload H0 H1
         Hlen run.
  destruct (apply_afid_model_not_single W 1 sp fp dir (a0, a1)
              padding size sr Hlen) as [[e He] Hloads].
  assert (Hrun : run = (EvNpLoad offsets_path
                          :: trace (apply_afid_model W 1 sp fp dir (a0, a1)
                                      padding size sr), Raise e)).
  { subst run.
    rewrite (apply_all_afid_models_stops_at W sp fp offsets_path dir
               padding size sr archive a0 a1 1 e Hload H0 H1);
      [|lia|intros m Hm; lia|exact He].
    change (range 1 (1 + 1)) with [1]. simpl. now rewrite app_nil_r. }
  rewrite Hrun. unfold outcome, trace in *. simpl.
  repeat split; eauto.
  destruct (apply_afid_model_trace W 1 sp fp dir (a0, a1) padding size sr) as [Hw _].
  exact Hw.
Qed.

Lemma apply_all_afid_models_needs_one_pair_witness :
  List.length (combine ["sub-01.nii.gz"; "sub-02.nii.gz"]
                 ["sub-01.fcsv"; "sub-02.fcsv"]) <> 1%nat /\
  (exists e,
     outcome (apply_all_afid_models stub_world ["sub-01.nii.gz"; "sub-02.nii.gz"]
                ["sub-01.fcsv"; "sub-02.fcsv"] "feature_offsets.npz" "models"
                0 1 5) = Raise e) /\
  writes (trace (apply_all_afid_models stub_world
                   ["sub-01.nii.gz"; "sub-02.nii.gz"]
                   ["sub-01.fcsv"; "sub-02.fcsv"] "feature_offsets.npz" "models"
                   0 1 5)) = [].
Proof.
  assert (Hlen : List.length (combine ["sub-01.nii.gz"; "sub-02.nii.gz"]
                                ["sub-01.fcsv"; "sub-02.fcsv"]) <> 1%nat)
    by (simpl; lia).
  destruct (apply_all_afid_models_needs_one_pair stub_world
              ["sub-01.nii.gz"; "sub-02.nii.gz"] ["sub-01.fcsv"; "sub-02.fcsv"]
              "feature_offsets.npz" "models" 0 1 5
              [("arr_0", []); ("arr_1", [])] [] [] eq_refl eq_refl eq_refl Hlen)
    as (He & _ & _ & Hw).
  split; [exact Hlen|]. split; [exact He|exact Hw].
Defined.

(** X13. In every run, ended normally or not, the calls are [numpy.load]
    first, then only Locator calls for landmarks 1..32 (seed index in
    0..31, features with the run's [padding, size, sampling_rate] passed in
    this order, model file named after the landmark and the run's [size]),
    then at most one call of the writer, last. *)
Theorem apply_all_afid_models_calls :
  forall W sp fp offsets_path dir padding size sr,
    exists calls tail,
      trace (apply_all_afid_models W sp fp offsets_path dir padding size sr)
        = EvNpLoad offsets_path :: calls ++ tail /\
      Forall (landmark_call dir padding size sr) calls /\
      (tail = [] \/ exists table, tail = [EvWrite table]).
Proof.
  intros W sp fp offsets_path dir padding size sr.
  destruct (np_load W offsets_path) as [archive|e] eqn:Hload.
  - rewrite (apply_all_afid_models_run _ _ _ _ _ _ _ _ _ Hload).
    assert (Hnums : Forall (fun n => 1 <= n <= 32) (range 1 33))
      by (apply Forall_forall; intros n Hn; apply In_range in Hn; lia).
    pose proof (afid_loop_calls W sp fp dir padding size sr archive
                  (range 1 33) Hnums [np_empty3 W]) as Hcalls.
    unfold trace in *.
    destruct (afid_loop W sp fp dir archive padding size sr (range 1 33)
                [np_empty3 W]) as [t [all|e]]; simpl in *.
    + exists t, [EvWrite (map astype_int3 (tl all))]. eauto.
    + exists t, []. rewrite app_nil_r. auto.
  - rewrite (apply_all_afid_models_np_load_raise _ _ _ _ _ _ _ _ _ Hload).
    exists [], []. simpl. auto.
Qed.

(** X14. When the 32 Locator calls succeed, the writer is called once with
    a table of 32 rows and the run ends as the writer does: an exception of
    the writer is the exception of the run. *)
Theorem apply_all_afid_models_writer_outcome :
  forall W sp fp offsets_path dir padding size sr archive a0 a1,
    np_load W offsets_path = Ok archive ->
    npz_get archive "arr_0" = Ok a0 ->
    npz_get archive "arr_1" = Ok a1 ->
    (forall n, 1 <= n <= 32 ->
       exists c, outcome (apply_afid_model W n sp fp dir (a0, a1)
                            padding size sr) = Ok c) ->
    let run := apply_all_afid_models W sp fp offsets_path dir padding size sr in
    exists table,
      List.length table = 32%nat /\
      writes (trace run) = [table] /\
      outcome run = afids_to_fcsv W table.
Proof.
  intros W sp fp offsets_path dir padding size sr archive a0 a1 Hload H0 H1
         Hall run.
  destruct (apply_all_afid_models_writes W sp fp dir padding size sr
              offsets_path archive a0 a1 Hload H0 H1)
    as [(coords & Hcoords & Hw & Hout) | (n & e & Hn & He & _ & _)].
  - exists (map astype_int3 coords). repeat split; auto.
    rewrite length_map, <- (Forall2_length Hcoords). reflexivity.
  - destruct (Hall n Hn) as [c Hc]. congruence.
Qed.

Lemma apply_all_afid_models_writer_outcome_witness :
  (forall n, 1 <= n <= 32 ->
     exists c, outcome (apply_afid_model bad_writer_world n ["sub-01.nii.gz"]
                          ["sub-01.fcsv"] "models" ([], []) 0 1 5) = Ok c) /\
  exists table,
    List.length table = 32%nat /\
    writes (trace (apply_all_afid_models bad_writer_world ["sub-01.nii.gz"]
                     ["sub-01.fcsv"] "feature_offsets.npz" "models" 0 1 5))
      = [table] /\
    outcome (apply_all_afid_models bad_writer_world ["sub-01.nii.gz"]
               ["sub-01.fcsv"] "feature_offsets.npz" "models" 0 1 5)
      = Raise (CollaboratorError "PermissionError" "output").
Proof.
  assert (Hall : forall n, 1 <= n <= 32 ->
            exists c, outcome (apply_afid_model bad_writer_world n
                                 ["sub-01.nii.gz"] ["sub-01.fcsv"] "models"
                                 ([], []) 0 1 5) = Ok c).
  { intros n _. exists (V3 2 2 2).
    rewrite (apply_afid_model_single bad_writer_world n "sub-01.nii.gz"
               "sub-01.fcsv" "models" ([], []) 0 1 5 (V3 0 0 0) identity_affine
               [[0]; [0]; [0]]%float [V3 1 1 1; V3 2 2 2; V3 3 3 3]
               eq_refl eq_refl).
    reflexivity. }
  split; [exact Hall|].
  exact (apply_all_afid_models_writer_outcome bad_writer_world ["sub-01.nii.gz"]
           ["sub-01.fcsv"] "feature_offsets.npz" "models" 0 1 5
           [("arr_0", []); ("arr_1", [])] [] [] eq_refl eq_refl eq_refl Hall).
Defined.

(** X15. What [numpy.empty] happened to hold never reaches the writer nor
    changes the run: the first row of the stacked array is dropped. *)
Theorem apply_all_afid_models_ignores_np_empty :
  forall W v sp fp offsets_path dir padding size sr,
    apply_all_afid_models (with_np_empty3 W v) sp fp offsets_path dir
      padding size sr
    = apply_all_afid_models W sp fp offsets_path dir padding size sr.
Proof.
  intros W v sp fp offsets_path dir padding size sr.
  unfold apply_all_afid_models.
  remember (range 1 33) as afid_nums eqn:Hnums. clear Hnums.
  unfold call_np_load, call_afids_to_fcsv, bind, emit, lift. simpl.
  destruct (np_load W offsets_path) as [archive|e]; simpl; [|reflexivity].
  rewrite afid_loop_with_np_empty3.
  rewrite (afid_loop_acc W sp fp dir archive padding size sr afid_nums [v]),
          (afid_loop_acc W sp fp dir archive padding size sr afid_nums [np_empty3 W]).
  unfold trace, outcome.
  destruct (afid_loop W sp fp dir archive padding size sr afid_nums [])
    as [t [coords|e]]; reflexivity.
Qed.

(* ================================================================== *)
(** ** Further properties of the cast and of the file name *)

(** X16. The cast to integer of the written coordinates is odd: negating
    the float negates the integer, whenever the cast is defined (its result
    is not the out-of-range value).  The rounding is toward zero, for
    negative coordinates as for positive ones. *)
Theorem astype_int_opp :
  forall x,
    astype_int x <> int64_min ->
    astype_int (- x)%float = - astype_int x.
Proof.
  intros x. unfold astype_int. rewrite opp_spec.
  destruct (Prim2SF x) as [s|s| |s m e]; simpl; try congruence; try reflexivity.
  set (a := Z.shiftl (Z.pos m) e).
  assert (Ha : 0 <= a) by (apply Z.shiftl_nonneg; lia).
  unfold int64_min, int64_max in *.
  destruct s; simpl;
    repeat match goal with
    | |- context [Z.leb ?u ?v] => destruct (Z.leb_spec u v) as [?|?]
    end; simpl; intros Hne; try lia; try congruence.
Qed.

Lemma astype_int_opp_witness :
  astype_int 1.7 <> int64_min /\ astype_int (- 1.7)%float = - astype_int 1.7.
Proof.
  assert (H : astype_int 1.7 <> int64_min) by (vm_compute; discriminate).
  split; [exact H|exact (astype_int_opp 1.7%float H)].
Defined.

(** X17. The landmark number in the file name is padded, never cut: a
    number 0..9 is written with a leading zero, a number from 10 on is
    written as it is, with all its digits. *)
Theorem model_fname_zero_padding :
  forall n r,
    (0 <= n <= 9 ->
       model_fname n r
       = ("afid-0" ++ str n ++ "_desc-rf_sampleRate-iso" ++ str r
            ++ "vox_model.joblib")%string) /\
    (10 <= n ->
       model_fname n r
       = ("afid-" ++ str n ++ "_desc-rf_sampleRate-iso" ++ str r
            ++ "vox_model.joblib")%string).
Proof.
  intros n r. split; intros Hn.
  - assert (Hin : In n (range 0 10)) by (apply In_range; lia).
    vm_compute in Hin.
    repeat (destruct Hin as [<-|Hin]; [reflexivity|]).
    destruct Hin.
  - unfold model_fname. do 2 f_equal.
    pose proof (int_of_str_str n) as Hs. pose proof (str_chars n) as Hc.
    destruct (str n) as [|c [|c2 rest]]; [discriminate Hs| |reflexivity].
    exfalso. simpl in Hc. rewrite andb_true_r in Hc.
    apply numeral_char_cases in Hc. simpl in Hc.
    repeat (destruct Hc as [<-|Hc];
            [vm_compute in Hs; try discriminate Hs;
             injection Hs as Hs; lia|]).
    destruct Hc.
Qed.

Lemma model_fname_zero_padding_witness :
  0 <= 7 <= 9 /\ 10 <= 132 /\
  model_fname 7 5 = "afid-07_desc-rf_sampleRate-iso5vox_model.joblib" /\
  model_fname 132 5 = "afid-132_desc-rf_sampleRate-iso5vox_model.joblib".
Proof.
  assert (H7 : 0 <= 7 <= 9) by lia. assert (H132 : 10 <= 132) by lia.
  split; [exact H7|]. split; [exact H132|]. split.
  - exact (proj1 (model_fname_zero_padding 7 5) H7).
  - exact (proj2 (model_fname_zero_padding 132 5) H132).
Defined.
